(** * QuantizedConv2d: a quantized 2-D convolution layer

    Verification development for
    [tensorlayer/layers/convolution/quan_conv.py].

    The constructor of [QuantizedConv2d] builds a TensorFlow dataflow graph:
    the Python values it handles are symbolic tensors (graph nodes), not
    arrays of numbers.  The embedding therefore has two levels:

    - [Graph]: symbolic tensors, Python exceptions, the layer object and a
      state-and-exception monad in which the constructor is written line
      by line;
    - [Float]: the two quantisation transforms on tensors of
      floating-point numbers.  Their code ([tensorlayer.layers.utils]) is
      not part of the sources at hand; they are modelled from the
      specification. *)

From Stdlib Require Import ZArith List String Bool Lia.
From Stdlib Require Import SpecFloat.
Import ListNotations.

Local Open Scope Z_scope.
Local Open Scope string_scope.

(* ===================================================================== *)
(** * Symbolic tensors and the layer object                               *)
(* ===================================================================== *)

Module Graph.

(** Element types of tensors. *)
Inductive DType := float16 | float32 | float64.

(** A static dimension: [None] is TensorFlow's [Dimension(None)], written
    [?] when printed. *)
Definition Dimension := option Z.

(** A static shape: [None] is a shape of unknown rank. *)
Definition TensorShape := option (list Dimension).

(** An initializer object, e.g. [tf.truncated_normal_initializer(stddev=0.02)];
    only its identity matters here. *)
Record Initializer := { initializer_repr : string }.

(** Keyword arguments forwarded to an initializer ([W_init_args]). *)
Definition kwargs := list (string * string).

(** The [shape] argument of a variable request: the weight is requested
    with a tuple, the bias with [(shape[-1])], which in Python is the bare
    integer (parentheses without a comma make no tuple). *)
Inductive ShapeArg :=
| ShapeTuple (dims : list Z)
| ShapeInt (n : Z).

(** Graph nodes.  [Upstream] is a tensor produced by the previous layers,
    about which only the name and the element type are known. *)
Inductive Tensor :=
| Upstream (name : string) (dtype : DType)
| Var (scope name : string) (shape : ShapeArg)
           (initializer : Initializer) (dtype : DType) (init_args : kwargs)
| QuantizeActiveOverflow (x : Tensor) (bitA : Z)
| QuantizeWeightOverflow (x : Tensor) (bitW : Z)
| Conv2d (input filter : Tensor) (strides : list Z) (padding : string)
         (use_cudnn_on_gpu : bool) (data_format : option string)
| BiasAdd (value bias : Tensor) (name : string)
| Activation (f : string) (x : Tensor).

(** [t.dtype]: every operation of the layer keeps the element type of its
    first operand. *)
Fixpoint dtype (t : Tensor) : DType :=
  match t with
  | Upstream _ d => d
  | Var _ _ _ _ d _ => d
  | QuantizeActiveOverflow x _ => dtype x
  | QuantizeWeightOverflow x _ => dtype x
  | Conv2d x _ _ _ _ _ => dtype x
  | BiasAdd x _ _ => dtype x
  | Activation _ x => dtype x
  end.

Definition is_variable (t : Tensor) : bool :=
  match t with Var _ _ _ _ _ _ => true | _ => false end.

Definition is_quantized (t : Tensor) : bool :=
  match t with
  | QuantizeActiveOverflow _ _ | QuantizeWeightOverflow _ _ => true
  | _ => false
  end.

(** Python exceptions raised while the constructor runs.  The first five
    are raised by the statements and checks that are modelled.
    [Propagated] is an exception that comes out of an external primitive
    for a reason the model does not look into (a shape, a type, a name
    that is taken), whatever its Python class: the constructor has no
    handler for it and lets it through. *)
Inductive exn :=
| Exception (msg : string)
| ValueError (msg : string)
| TypeError (msg : string)
| IndexError (msg : string)
| AttributeError (msg : string)
| Propagated (primitive reason : string).

Inductive result (A : Type) :=
| Ok (a : A)
| Raise (e : exn).
Arguments Ok {A} a.
Arguments Raise {A} e.

(** The previous layer, as far as the constructor looks at it:
    [prev_layer.outputs], the static shape [prev_layer.outputs.get_shape()]
    that TensorFlow reports for it, and the lists the base class copies. *)
Record PrevLayer := {
  prev_outputs : Tensor;
  prev_outputs_shape : TensorShape;
  prev_all_layers : list Tensor;
  prev_all_params : list Tensor
}.

(** The layer object [self]. *)
Record Layer := {
  name : string;
  act : option string;
  inputs : option Tensor;
  outputs : option Tensor;
  W_init_args : kwargs;
  b_init_args : kwargs;
  _local_weights : list Tensor;
  all_layers : list Tensor;
  all_params : list Tensor
}.

(** What the constructor does to the outside world, in the order in which
    it does it: log records and calls of collaborators. *)
Inductive Event :=
| EvLogInfo (layer_name : string) (n_filter : Z) (filter_size strides : list Z)
            (padding : string) (act_name : string)
| EvLogWarning (msg : string)
| EvQuantizeActive (x : Tensor) (bitA : Z)
| EvGetVariable (scope name : string) (shape : ShapeArg)
                (initializer : Initializer) (dt : DType) (init_args : kwargs)
| EvQuantizeWeight (w : Tensor) (bitW : Z)
| EvConv2d (input filter : Tensor) (strides : list Z) (padding : string)
           (use_cudnn_on_gpu : bool) (data_format : option string)
| EvBiasAdd (value bias : Tensor)
| EvApplyActivation (x : Tensor)
| EvAddLayers (t : Tensor)
| EvAddParams (ps : list Tensor).

(** What the external primitives make of their arguments: [None] when the
    call is accepted, [Some reason] when it raises.  The constructor is
    verified for every such behaviour. *)
Record Primitives := {
  get_variable_error :
    string -> string -> ShapeArg -> Initializer -> DType -> kwargs ->
    option string;
  conv2d_error :
    Tensor -> Tensor -> list Z -> string -> bool -> option string ->
    option string;
  bias_add_error : Tensor -> Tensor -> option string
}.

(** [variable_scope] is TensorFlow's current variable scope, which
    [with tf.variable_scope(...)] sets for the statements under it. *)
Record World := {
  self : Layer;
  variable_scope : string;
  trace : list Event
}.

(** ** State and exceptions

    A Python statement changes the object and either completes or raises;
    what it changed before raising stays changed. *)
Definition M (A : Type) : Type := World -> result A * World.

Definition ret {A} (a : A) : M A := fun w => (Ok a, w).

Definition bind {A B} (m : M A) (k : A -> M B) : M B :=
  fun w =>
    match m w with
    | (Ok a, w') => k a w'
    | (Raise e, w') => (Raise e, w')
    end.

Definition raise {A} (e : exn) : M A := fun w => (Raise e, w).

Declare Scope py_scope.
Delimit Scope py_scope with py.
Notation "x <- m ;; k" := (bind m (fun x => k))
  (at level 61, m at next level, right associativity) : py_scope.
Notation "m ;; k" := (bind m (fun _ => k))
  (at level 61, right associativity) : py_scope.
Local Open Scope py_scope.

Definition emit (e : Event) : M unit :=
  fun w => (Ok tt, {| self := self w; variable_scope := variable_scope w;
                      trace := trace w ++ [e] |}).

Definition get_self : M Layer := fun w => (Ok (self w), w).

Definition modify_self (f : Layer -> Layer) : M unit :=
  fun w => (Ok tt, {| self := f (self w); variable_scope := variable_scope w;
                      trace := trace w |}).

(** [self.inputs], [self.outputs]: using an attribute that still holds
    [None] where a tensor is needed fails in Python; the constructor never
    gets there. *)
Definition get_inputs : M Tensor :=
  l <- get_self ;;
  match inputs l with
  | Some t => ret t
  | None => raise (AttributeError "inputs")
  end.

Definition get_outputs : M Tensor :=
  l <- get_self ;;
  match outputs l with
  | Some t => ret t
  | None => raise (AttributeError "outputs")
  end.

Definition set_inputs (t : Tensor) : M unit :=
  modify_self (fun l =>
    {| name := name l; act := act l; inputs := Some t; outputs := outputs l;
       W_init_args := W_init_args l; b_init_args := b_init_args l;
       _local_weights := _local_weights l;
       all_layers := all_layers l; all_params := all_params l |}).

Definition set_outputs (t : Tensor) : M unit :=
  modify_self (fun l =>
    {| name := name l; act := act l; inputs := inputs l; outputs := Some t;
       W_init_args := W_init_args l; b_init_args := b_init_args l;
       _local_weights := _local_weights l;
       all_layers := all_layers l; all_params := all_params l |}).

(** ** Python sequences *)

(** [t[i]] for a non-negative literal index. *)
Definition getitem (t : list Z) (i : nat) : M Z :=
  match nth_error t i with
  | Some v => ret v
  | None => raise (IndexError "tuple index out of range")
  end.

Definition len (t : list Z) : Z := Z.of_nat (List.length t).

(** [try: body except TypeError: handler]: only a [TypeError] is caught. *)
Definition try_except_TypeError {A} (body handler : M A) : M A :=
  fun w =>
    match body w with
    | (Raise (TypeError _), w') => handler w'
    | r => r
    end.

(** [with tf.variable_scope(scope): body]: the scope is entered for the
    body and left again however the body ends. *)
Definition join_scope (outer scope : string) : string :=
  if String.eqb outer "" then scope else outer ++ "/" ++ scope.

Definition with_variable_scope {A} (scope : string) (body : M A) : M A :=
  fun w =>
    let outer := variable_scope w in
    let inner := join_scope outer scope in
    match body {| self := self w; variable_scope := inner; trace := trace w |} with
    | (r, w') =>
        (r, {| self := self w'; variable_scope := outer; trace := trace w' |})
    end.

(** ** Static shapes *)

(** [shape[-1]] on a [TensorShape]: a shape of unknown rank answers every
    index with [Dimension(None)]. *)
Definition shape_last (s : TensorShape) : M Dimension :=
  match s with
  | None => ret None
  | Some dims =>
      match rev dims with
      | d :: _ => ret d
      | [] => raise (IndexError "list index out of range")
      end
  end.

(** [int(d)] on a [Dimension]: the unknown dimension holds [None], which
    [int] refuses with a [TypeError]. *)
Definition int_of_dimension (d : Dimension) : M Z :=
  match d with
  | Some v => ret v
  | None => raise (TypeError "int() argument must be a number, not NoneType")
  end.

(** ** Collaborators of the constructor *)

(** [logging.info] and [logging.warning]. *)
Definition logging_info (layer_name : string) (n_filter : Z)
    (filter_size strides : list Z) (padding act_name : string) : M unit :=
  emit (EvLogInfo layer_name n_filter filter_size strides padding act_name).

Definition logging_warning (msg : string) : M unit :=
  emit (EvLogWarning msg).

(** Modelled from the spec: the two quantisation transforms of
    [tensorlayer.layers.utils], missing from the sources.  In the graph
    each is one node over its operand, pure and never failing (sections 4.1
    and 4.2: "Side effects: none; pure function"); what the node computes
    is the subject of [Float] below. *)
Definition quantize_active_overflow (x : Tensor) (bitA : Z) : M Tensor :=
  emit (EvQuantizeActive x bitA) ;;
  ret (QuantizeActiveOverflow x bitA).

Definition quantize_weight_overflow (w : Tensor) (bitW : Z) : M Tensor :=
  emit (EvQuantizeWeight w bitW) ;;
  ret (QuantizeWeightOverflow w bitW).

(** The padding modes of section 4.3: "exactly two modes". *)
Definition padding_supported (padding : string) : bool :=
  String.eqb padding "SAME" || String.eqb padding "VALID".

(** Modelled from the spec: [tf.nn.conv2d], the external convolution
    primitive of section 6, whose [padding] is one of "SAME" and "VALID":
    TensorFlow checks that attribute when the node is created and raises a
    [ValueError] for any other string.  Every other error of the
    primitive (section 7: they "propagate from the external
    convolution/bias primitives unchanged") is left to [tf]. *)
Definition tf_nn_conv2d (tf : Primitives) (input filter : Tensor)
    (strides : list Z) (padding : string) (use_cudnn_on_gpu : bool)
    (data_format : option string) : M Tensor :=
  emit (EvConv2d input filter strides padding use_cudnn_on_gpu data_format) ;;
  if padding_supported padding
  then
    match conv2d_error tf input filter strides padding use_cudnn_on_gpu
            data_format with
    | Some reason => raise (Propagated "tf.nn.conv2d" reason)
    | None =>
        ret (Conv2d input filter strides padding use_cudnn_on_gpu data_format)
    end
  else raise (ValueError "Attr padding of Conv2D Op not in: SAME, VALID").

(** Modelled from the spec: [tf.nn.bias_add], the external bias-add
    primitive of section 6; its errors are left to [tf]. *)
Definition tf_nn_bias_add (tf : Primitives) (value bias : Tensor)
    (op_name : string) : M Tensor :=
  emit (EvBiasAdd value bias) ;;
  match bias_add_error tf value bias with
  | Some reason => raise (Propagated "tf.nn.bias_add" reason)
  | None => ret (BiasAdd value bias op_name)
  end.

(** Modelled from the spec: the base class [Layer] of
    [tensorlayer.layers.core], missing from the sources.  Its constructor
    takes over [prev_layer], [act], the two argument dictionaries ([None]
    standing for the empty one) and [name]; the layer's inputs are the
    previous layer's outputs, and the layers and parameters registered so
    far are inherited. *)
Definition Layer___init__ (prev_layer : PrevLayer) (act_arg : option string)
    (W_init_args_arg b_init_args_arg : option kwargs) (name_arg : string)
    : M unit :=
  modify_self (fun _ =>
    {| name := name_arg;
       act := act_arg;
       inputs := Some (prev_outputs prev_layer);
       outputs := None;
       W_init_args := match W_init_args_arg with Some d => d | None => [] end;
       b_init_args := match b_init_args_arg with Some d => d | None => [] end;
       _local_weights := [];
       all_layers := prev_all_layers prev_layer;
       all_params := prev_all_params prev_layer |}).

(** Modelled from the spec: [Layer._get_tf_variable], the parameter service
    of section 6, [get_or_create_variable(name, shape, initializer, dtype,
    **init_args) -> Tensor].  The variable lives in the current variable
    scope and is remembered among the layer's own weights, which is what
    step (7) of section 4.3 registers.  When the service refuses the
    request, as [tf] decides, no variable is remembered. *)
Definition _get_tf_variable (tf : Primitives) (var_name : string)
    (shape : ShapeArg) (initializer : Initializer) (dt : DType)
    (init_args : kwargs) : M Tensor :=
  fun w =>
    let scope := variable_scope w in
    let v := Var scope var_name shape initializer dt init_args in
    (emit (EvGetVariable scope var_name shape initializer dt init_args) ;;
     match get_variable_error tf scope var_name shape initializer dt
             init_args with
     | Some reason => raise (Propagated "tf.get_variable" reason)
     | None =>
         modify_self (fun l =>
           {| name := name l; act := act l; inputs := inputs l;
              outputs := outputs l;
              W_init_args := W_init_args l; b_init_args := b_init_args l;
              _local_weights := _local_weights l ++ [v];
              all_layers := all_layers l; all_params := all_params l |}) ;;
         ret v
     end) w.

(** Modelled from the spec: [Layer._apply_activation], section 6:
    "any unary tensor -> tensor function, applied last; None means
    identity". *)
Definition _apply_activation (logits : Tensor) : M Tensor :=
  emit (EvApplyActivation logits) ;;
  l <- get_self ;;
  match act l with
  | Some f => ret (Activation f logits)
  | None => ret logits
  end.

(** Modelled from the spec: [Layer._add_layers] and [Layer._add_params],
    section 6, [register_parameters(tensor_list)]: the tensors given are
    attached to the layer, after the inherited ones. *)
Definition _add_layers (t : Tensor) : M unit :=
  emit (EvAddLayers t) ;;
  modify_self (fun l =>
    {| name := name l; act := act l; inputs := inputs l; outputs := outputs l;
       W_init_args := W_init_args l; b_init_args := b_init_args l;
       _local_weights := _local_weights l;
       all_layers := all_layers l ++ [t]; all_params := all_params l |}).

Definition _add_params (ps : list Tensor) : M unit :=
  emit (EvAddParams ps) ;;
  modify_self (fun l =>
    {| name := name l; act := act l; inputs := inputs l; outputs := outputs l;
       W_init_args := W_init_args l; b_init_args := b_init_args l;
       _local_weights := _local_weights l;
       all_layers := all_layers l; all_params := all_params l ++ ps |}).

End Graph.

(* ===================================================================== *)
(** * The constructor of [QuantizedConv2d]                                *)
(* ===================================================================== *)

Module QuantizedConv2d.
Import Graph.
Local Open Scope py_scope.

(** The arguments of [QuantizedConv2d.__init__], under their Python names.
    [b_init] is an initializer object or [None]; an initializer object is
    true where Python tests it. *)
Record Args := {
  prev_layer : PrevLayer;
  n_filter : Z;
  filter_size : list Z;
  strides : list Z;
  padding : string;
  act : option string;
  bitW : Z;
  bitA : Z;
  use_gemm : bool;
  use_cudnn_on_gpu : bool;
  data_format : option string;
  W_init : Initializer;
  b_init : option Initializer;
  W_init_args : option kwargs;
  b_init_args : option kwargs;
  name : string
}.

(** The defaults of the signature. *)
Definition default_args (prev : PrevLayer) : Args :=
  {| prev_layer := prev;
     n_filter := 32;
     filter_size := [3; 3];
     strides := [1; 1];
     padding := "SAME";
     act := None;
     bitW := 8;
     bitA := 8;
     use_gemm := false;
     use_cudnn_on_gpu := true;
     data_format := None;
     W_init := {| initializer_repr := "truncated_normal_initializer(stddev=0.02)" |};
     b_init := Some {| initializer_repr := "constant_initializer(value=0.0)" |};
     W_init_args := None;
     b_init_args := None;
     name := "quan_cnn2d" |}.

(** Line 119: [int(prev_layer.outputs.get_shape()[-1])]. *)
Definition static_input_channels (a : Args) : M Z :=
  d <- shape_last (prev_outputs_shape (prev_layer a)) ;;
  int_of_dimension d.

(** Lines 118-122: the number of input channels, or 1 with a warning when
    the conversion of line 119 raises a [TypeError]. *)
Definition infer_input_channels (a : Args) : M Z :=
  try_except_TypeError
    (static_input_channels a)
    (logging_warning "[warnings] unknow input channels, set to 1" ;;
     ret 1).

(** Lines 127-146: the statements under [with tf.variable_scope(name)]. *)
Definition build_forward (tf : Primitives) (a : Args)
    (shape strides4 : list Z) : M unit :=
  x <- get_inputs ;;
  l <- get_self ;;
  W <- _get_tf_variable tf "W_conv2d" (ShapeTuple shape) (W_init a) (dtype x)
         (Graph.W_init_args l) ;;
  W <- quantize_weight_overflow W (bitW a) ;;
  x <- get_inputs ;;
  out <- tf_nn_conv2d tf x W strides4 (padding a) (use_cudnn_on_gpu a)
           (data_format a) ;;
  set_outputs out ;;
  match b_init a with
  | Some bi =>
      x <- get_inputs ;;
      l <- get_self ;;
      b <- _get_tf_variable tf "b_conv2d" (ShapeInt (last shape 0)) bi (dtype x)
             (Graph.b_init_args l) ;;
      out <- get_outputs ;;
      out <- tf_nn_bias_add tf out b "bias_add" ;;
      set_outputs out
  | None => ret tt
  end ;;
  out <- get_outputs ;;
  out <- _apply_activation out ;;
  set_outputs out.

(** [QuantizedConv2d.__init__], lines 100-149. *)
Definition __init__ (tf : Primitives) (a : Args) : M unit :=
  Layer___init__ (prev_layer a) (act a) (W_init_args a) (b_init_args a)
    (name a) ;;
  l <- get_self ;;
  logging_info (Graph.name l) (n_filter a) (filter_size a) (strides a)
    (padding a)
    (match Graph.act l with Some f => f | None => "No Activation" end) ;;
  x <- get_inputs ;;
  x <- quantize_active_overflow x (bitA a) ;;
  set_inputs x ;;
  (if use_gemm a
   then raise (Exception "TODO. The current version use tf.matmul for inferencing.")
   else ret tt) ;;
  (if negb (len (strides a) =? 2)%Z
   then raise (ValueError "len(strides) should be 2.")
   else ret tt) ;;
  input_channels <- infer_input_channels a ;;
  fh <- getitem (filter_size a) 0 ;;
  fw <- getitem (filter_size a) 1 ;;
  let shape := [fh; fw; input_channels; n_filter a] in
  s0 <- getitem (strides a) 0 ;;
  s1 <- getitem (strides a) 1 ;;
  let strides4 := [1; s0; s1; 1] in
  with_variable_scope (name a) (build_forward tf a shape strides4) ;;
  out <- get_outputs ;;
  _add_layers out ;;
  l <- get_self ;;
  _add_params (_local_weights l).

(** [QuantizedConv2d(...)]: Python allocates an object without attributes
    and runs [__init__] on it.  [tf] is the behaviour of the external
    primitives and [outer_scope] the variable scope the caller is in; the
    trace starts empty, so that it holds exactly what this construction
    did. *)
Definition new_object : Layer :=
  {| Graph.name := ""; Graph.act := None; inputs := None; outputs := None;
     Graph.W_init_args := []; Graph.b_init_args := [];
     _local_weights := []; all_layers := []; all_params := [] |}.

Definition construct (tf : Primitives) (outer_scope : string) (a : Args)
    : result unit * World :=
  __init__ tf a {| self := new_object; variable_scope := outer_scope; trace := [] |}.

(** The calls of collaborators in a trace, log records left out. *)
Definition is_log (e : Event) : bool :=
  match e with
  | EvLogInfo _ _ _ _ _ _ | EvLogWarning _ => true
  | _ => false
  end.

Definition calls (t : list Event) : list Event :=
  filter (fun e => negb (is_log e)) t.

(** The calls of a quantisation transform. *)
Definition is_quantize_call (e : Event) : bool :=
  match e with
  | EvQuantizeActive _ _ | EvQuantizeWeight _ _ => true
  | _ => false
  end.

(** ** The ways a construction can end

    These definitions describe runs of the constructor; the facts below
    relate them to [construct]. *)

(** The last static dimension of the previous outputs: [None] when there
    is no dimension to index, [Some None] when it is unknown. *)
Definition static_channels (s : TensorShape) : option Dimension :=
  match s with
  | None => Some None
  | Some dims => match rev dims with d :: _ => Some d | [] => None end
  end.

Definition warning : Event :=
  EvLogWarning "[warnings] unknow input channels, set to 1".

(** The channel count lines 118-122 settle on, and what they log. *)
Definition channels_and_warning (d : Dimension) : Z * list Event :=
  match d with Some v => (v, []) | None => (1, [warning]) end.

Definition add_events (w : World) (es : list Event) : World :=
  {| self := self w; variable_scope := variable_scope w;
     trace := trace w ++ es |}.

Definition args_or_empty (d : option kwargs) : kwargs :=
  match d with Some k => k | None => [] end.

(** The world after line 110: the base class has run, the call is logged
    and the inputs are quantised. *)
Definition after_quantize (outer : string) (a : Args) : World :=
  {| self :=
       {| Graph.name := name a; Graph.act := act a;
          inputs := Some (QuantizeActiveOverflow (prev_outputs (prev_layer a))
                            (bitA a));
          outputs := None;
          Graph.W_init_args := args_or_empty (W_init_args a);
          Graph.b_init_args := args_or_empty (b_init_args a);
          _local_weights := [];
          all_layers := prev_all_layers (prev_layer a);
          all_params := prev_all_params (prev_layer a) |};
     variable_scope := outer;
     trace :=
       [EvLogInfo (name a) (n_filter a) (filter_size a) (strides a) (padding a)
          (match act a with Some f => f | None => "No Activation" end);
        EvQuantizeActive (prev_outputs (prev_layer a)) (bitA a)] |}.

(** The world left behind when the convolution primitive refuses the
    padding: the weight variable exists and is recorded, no output is set. *)
Definition conv_rejected (outer : string) (a : Args) (ic fh fw s0 s1 : Z)
    (warn : list Event) : World :=
  let x := prev_outputs (prev_layer a) in
  let xq := QuantizeActiveOverflow x (bitA a) in
  let scope := join_scope outer (name a) in
  let wargs := args_or_empty (W_init_args a) in
  let W := Var scope "W_conv2d" (ShapeTuple [fh; fw; ic; n_filter a])
             (W_init a) (dtype x) wargs in
  {| self :=
       {| Graph.name := name a; Graph.act := act a;
          inputs := Some xq;
          outputs := None;
          Graph.W_init_args := wargs;
          Graph.b_init_args := args_or_empty (b_init_args a);
          _local_weights := [W];
          all_layers := prev_all_layers (prev_layer a);
          all_params := prev_all_params (prev_layer a) |};
     variable_scope := outer;
     trace :=
       trace (after_quantize outer a) ++ warn ++
       [EvGetVariable scope "W_conv2d" (ShapeTuple [fh; fw; ic; n_filter a])
          (W_init a) (dtype x) wargs;
        EvQuantizeWeight W (bitW a);
        EvConv2d xq (QuantizeWeightOverflow W (bitW a)) [1; s0; s1; 1]
          (padding a) (use_cudnn_on_gpu a) (data_format a)] |}.

(** The world a successful construction leaves behind. *)
Definition built (outer : string) (a : Args) (ic fh fw s0 s1 : Z)
    (warn : list Event) : World :=
  let x := prev_outputs (prev_layer a) in
  let xq := QuantizeActiveOverflow x (bitA a) in
  let scope := join_scope outer (name a) in
  let wargs := args_or_empty (W_init_args a) in
  let bargs := args_or_empty (b_init_args a) in
  let W := Var scope "W_conv2d" (ShapeTuple [fh; fw; ic; n_filter a])
             (W_init a) (dtype x) wargs in
  let Wq := QuantizeWeightOverflow W (bitW a) in
  let conv := Conv2d xq Wq [1; s0; s1; 1] (padding a) (use_cudnn_on_gpu a)
                (data_format a) in
  let b := fun bi => Var scope "b_conv2d" (ShapeInt (n_filter a)) bi (dtype x)
                       bargs in
  let biased := match b_init a with
                | Some bi => BiasAdd conv (b bi) "bias_add"
                | None => conv
                end in
  let out := match act a with
             | Some f => Activation f biased
             | None => biased
             end in
  let params := W :: match b_init a with Some bi => [b bi] | None => [] end in
  {| self :=
       {| Graph.name := name a; Graph.act := act a;
          inputs := Some xq;
          outputs := Some out;
          Graph.W_init_args := wargs;
          Graph.b_init_args := bargs;
          _local_weights := params;
          all_layers := prev_all_layers (prev_layer a) ++ [out];
          all_params := prev_all_params (prev_layer a) ++ params |};
     variable_scope := outer;
     trace :=
       trace (after_quantize outer a) ++ warn ++
       [EvGetVariable scope "W_conv2d" (ShapeTuple [fh; fw; ic; n_filter a])
          (W_init a) (dtype x) wargs;
        EvQuantizeWeight W (bitW a);
        EvConv2d xq Wq [1; s0; s1; 1] (padding a) (use_cudnn_on_gpu a)
          (data_format a)] ++
       match b_init a with
       | Some bi =>
           [EvGetVariable scope "b_conv2d" (ShapeInt (n_filter a)) bi (dtype x)
              bargs;
            EvBiasAdd conv (b bi)]
       | None => []
       end ++
       [EvApplyActivation biased; EvAddLayers out; EvAddParams params] |}.

(** The nodes of a construction, and what the primitives make of the calls
    that create them. *)
Definition weight_variable (outer : string) (a : Args) (ic fh fw : Z)
    : Tensor :=
  Var (join_scope outer (name a)) "W_conv2d"
    (ShapeTuple [fh; fw; ic; n_filter a]) (W_init a)
    (dtype (prev_outputs (prev_layer a))) (args_or_empty (W_init_args a)).

Definition convolution (outer : string) (a : Args) (ic fh fw s0 s1 : Z)
    : Tensor :=
  Conv2d (QuantizeActiveOverflow (prev_outputs (prev_layer a)) (bitA a))
    (QuantizeWeightOverflow (weight_variable outer a ic fh fw) (bitW a))
    [1; s0; s1; 1] (padding a) (use_cudnn_on_gpu a) (data_format a).

Definition bias_variable (outer : string) (a : Args) (bi : Initializer)
    : Tensor :=
  Var (join_scope outer (name a)) "b_conv2d" (ShapeInt (n_filter a)) bi
    (dtype (prev_outputs (prev_layer a))) (args_or_empty (b_init_args a)).

Definition weight_error (tf : Primitives) (outer : string) (a : Args)
    (ic fh fw : Z) : option string :=
  get_variable_error tf (join_scope outer (name a)) "W_conv2d"
    (ShapeTuple [fh; fw; ic; n_filter a]) (W_init a)
    (dtype (prev_outputs (prev_layer a))) (args_or_empty (W_init_args a)).

Definition conv_error (tf : Primitives) (outer : string) (a : Args)
    (ic fh fw s0 s1 : Z) : option string :=
  conv2d_error tf
    (QuantizeActiveOverflow (prev_outputs (prev_layer a)) (bitA a))
    (QuantizeWeightOverflow (weight_variable outer a ic fh fw) (bitW a))
    [1; s0; s1; 1] (padding a) (use_cudnn_on_gpu a) (data_format a).

Definition bias_error (tf : Primitives) (outer : string) (a : Args)
    (bi : Initializer) : option string :=
  get_variable_error tf (join_scope outer (name a)) "b_conv2d"
    (ShapeInt (n_filter a)) bi (dtype (prev_outputs (prev_layer a)))
    (args_or_empty (b_init_args a)).

Definition add_error (tf : Primitives) (outer : string) (a : Args)
    (ic fh fw s0 s1 : Z) (bi : Initializer) : option string :=
  bias_add_error tf (convolution outer a ic fh fw s0 s1)
    (bias_variable outer a bi).

(** What the primitives make of a call found in a trace; the calls that
    are not theirs are never refused. *)
Definition call_error (tf : Primitives) (e : Event) : option string :=
  match e with
  | EvGetVariable scope nm sh i dt k => get_variable_error tf scope nm sh i dt k
  | EvConv2d x f st p c df => conv2d_error tf x f st p c df
  | EvBiasAdd v b => bias_add_error tf v b
  | _ => None
  end.

(** Primitives that accept every call. *)
Definition accepting : Primitives :=
  {| get_variable_error := fun _ _ _ _ _ _ => None;
     conv2d_error := fun _ _ _ _ _ _ => None;
     bias_add_error := fun _ _ => None |}.

(** The world left behind when the request for the weight variable is
    refused: the request is in the trace, no variable is recorded. *)
Definition weight_refused (outer : string) (a : Args) (ic fh fw : Z)
    (warn : list Event) : World :=
  add_events (after_quantize outer a)
    (warn ++
     [EvGetVariable (join_scope outer (name a)) "W_conv2d"
        (ShapeTuple [fh; fw; ic; n_filter a]) (W_init a)
        (dtype (prev_outputs (prev_layer a)))
        (args_or_empty (W_init_args a))]).

(** The worlds left behind when the request for the bias variable, or
    the addition of the bias, is refused: the output of the convolution is
    set, and the variables created so far are recorded. *)
Definition bias_refused (outer : string) (a : Args) (ic fh fw s0 s1 : Z)
    (warn : list Event) (bi : Initializer) : World :=
  let w := conv_rejected outer a ic fh fw s0 s1 warn in
  {| self :=
       {| Graph.name := Graph.name (self w); Graph.act := Graph.act (self w);
          inputs := inputs (self w);
          outputs := Some (convolution outer a ic fh fw s0 s1);
          Graph.W_init_args := Graph.W_init_args (self w);
          Graph.b_init_args := Graph.b_init_args (self w);
          _local_weights := [weight_variable outer a ic fh fw];
          all_layers := all_layers (self w);
          all_params := all_params (self w) |};
     variable_scope := outer;
     trace :=
       trace w ++
       [EvGetVariable (join_scope outer (name a)) "b_conv2d"
          (ShapeInt (n_filter a)) bi (dtype (prev_outputs (prev_layer a)))
          (args_or_empty (b_init_args a))] |}.

Definition bias_add_refused (outer : string) (a : Args) (ic fh fw s0 s1 : Z)
    (warn : list Event) (bi : Initializer) : World :=
  let w := bias_refused outer a ic fh fw s0 s1 warn bi in
  {| self :=
       {| Graph.name := Graph.name (self w); Graph.act := Graph.act (self w);
          inputs := inputs (self w);
          outputs := outputs (self w);
          Graph.W_init_args := Graph.W_init_args (self w);
          Graph.b_init_args := Graph.b_init_args (self w);
          _local_weights :=
            [weight_variable outer a ic fh fw; bias_variable outer a bi];
          all_layers := all_layers (self w);
          all_params := all_params (self w) |};
     variable_scope := outer;
     trace :=
       trace w ++
       [EvBiasAdd (convolution outer a ic fh fw s0 s1)
          (bias_variable outer a bi)] |}.

(** Every way a construction can end. *)
Inductive outcome (tf : Primitives) (outer : string) (a : Args)
    : result unit -> World -> Prop :=
| out_use_gemm :
    use_gemm a = true ->
    outcome tf outer a
      (Raise (Exception "TODO. The current version use tf.matmul for inferencing."))
      (after_quantize outer a)
| out_strides :
    use_gemm a = false -> len (strides a) <> 2 ->
    outcome tf outer a (Raise (ValueError "len(strides) should be 2."))
      (after_quantize outer a)
| out_no_dimension s0 s1 :
    use_gemm a = false -> strides a = [s0; s1] ->
    static_channels (prev_outputs_shape (prev_layer a)) = None ->
    outcome tf outer a (Raise (IndexError "list index out of range"))
      (after_quantize outer a)
| out_filter_size s0 s1 d :
    use_gemm a = false -> strides a = [s0; s1] ->
    static_channels (prev_outputs_shape (prev_layer a)) = Some d ->
    nth_error (filter_size a) 1 = None ->
    outcome tf outer a (Raise (IndexError "tuple index out of range"))
      (add_events (after_quantize outer a) (snd (channels_and_warning d)))
| out_weight_refused s0 s1 d fh fw rest reason :
    use_gemm a = false -> strides a = [s0; s1] ->
    static_channels (prev_outputs_shape (prev_layer a)) = Some d ->
    filter_size a = fh :: fw :: rest ->
    weight_error tf outer a (fst (channels_and_warning d)) fh fw = Some reason ->
    outcome tf outer a (Raise (Propagated "tf.get_variable" reason))
      (weight_refused outer a (fst (channels_and_warning d)) fh fw
         (snd (channels_and_warning d)))
| out_padding s0 s1 d fh fw rest :
    use_gemm a = false -> strides a = [s0; s1] ->
    static_channels (prev_outputs_shape (prev_layer a)) = Some d ->
    filter_size a = fh :: fw :: rest ->
    weight_error tf outer a (fst (channels_and_warning d)) fh fw = None ->
    padding_supported (padding a) = false ->
    outcome tf outer a
      (Raise (ValueError "Attr padding of Conv2D Op not in: SAME, VALID"))
      (conv_rejected outer a (fst (channels_and_warning d)) fh fw s0 s1
         (snd (channels_and_warning d)))
| out_conv_refused s0 s1 d fh fw rest reason :
    use_gemm a = false -> strides a = [s0; s1] ->
    static_channels (prev_outputs_shape (prev_layer a)) = Some d ->
    filter_size a = fh :: fw :: rest ->
    weight_error tf outer a (fst (channels_and_warning d)) fh fw = None ->
    padding_supported (padding a) = true ->
    conv_error tf outer a (fst (channels_and_warning d)) fh fw s0 s1
      = Some reason ->
    outcome tf outer a (Raise (Propagated "tf.nn.conv2d" reason))
      (conv_rejected outer a (fst (channels_and_warning d)) fh fw s0 s1
         (snd (channels_and_warning d)))
| out_bias_refused s0 s1 d fh fw rest bi reason :
    use_gemm a = false -> strides a = [s0; s1] ->
    static_channels (prev_outputs_shape (prev_layer a)) = Some d ->
    filter_size a = fh :: fw :: rest ->
    weight_error tf outer a (fst (channels_and_warning d)) fh fw = None ->
    padding_supported (padding a) = true ->
    conv_error tf outer a (fst (channels_and_warning d)) fh fw s0 s1 = None ->
    b_init a = Some bi ->
    bias_error tf outer a bi = Some reason ->
    outcome tf outer a (Raise (Propagated "tf.get_variable" reason))
      (bias_refused outer a (fst (channels_and_warning d)) fh fw s0 s1
         (snd (channels_and_warning d)) bi)
| out_bias_add_refused s0 s1 d fh fw rest bi reason :
    use_gemm a = false -> strides a = [s0; s1] ->
    static_channels (prev_outputs_shape (prev_layer a)) = Some d ->
    filter_size a = fh :: fw :: rest ->
    weight_error tf outer a (fst (channels_and_warning d)) fh fw = None ->
    padding_supported (padding a) = true ->
    conv_error tf outer a (fst (channels_and_warning d)) fh fw s0 s1 = None ->
    b_init a = Some bi ->
    bias_error tf outer a bi = None ->
    add_error tf outer a (fst (channels_and_warning d)) fh fw s0 s1 bi
      = Some reason ->
    outcome tf outer a (Raise (Propagated "tf.nn.bias_add" reason))
      (bias_add_refused outer a (fst (channels_and_warning d)) fh fw s0 s1
         (snd (channels_and_warning d)) bi)
| out_built s0 s1 d fh fw rest :
    use_gemm a = false -> strides a = [s0; s1] ->
    static_channels (prev_outputs_shape (prev_layer a)) = Some d ->
    filter_size a = fh :: fw :: rest ->
    weight_error tf outer a (fst (channels_and_warning d)) fh fw = None ->
    padding_supported (padding a) = true ->
    conv_error tf outer a (fst (channels_and_warning d)) fh fw s0 s1 = None ->
    (forall bi, b_init a = Some bi ->
       bias_error tf outer a bi = None /\
       add_error tf outer a (fst (channels_and_warning d)) fh fw s0 s1 bi
         = None) ->
    outcome tf outer a (Ok tt)
      (built outer a (fst (channels_and_warning d)) fh fw s0 s1
         (snd (channels_and_warning d))).

(** A previous layer and arguments to run the constructor on: the input
    layer of the class's docstring, [x = tf.placeholder(tf.float32,
    [None, 256, 256, 3])]. *)
Definition example_prev : PrevLayer :=
  {| prev_outputs := Upstream "input" float32;
     prev_outputs_shape := Some [None; Some 256; Some 256; Some 3];
     prev_all_layers := [Upstream "input" float32];
     prev_all_params := [] |}.

(** The same placeholder with its last dimension unknown. *)
Definition example_prev_unknown : PrevLayer :=
  {| prev_outputs := Upstream "input" float32;
     prev_outputs_shape := Some [None; Some 256; Some 256; None];
     prev_all_layers := [Upstream "input" float32];
     prev_all_params := [] |}.

Definition with_use_gemm (a : Args) (g : bool) : Args :=
  {| prev_layer := prev_layer a; n_filter := n_filter a;
     filter_size := filter_size a; strides := strides a;
     padding := padding a; act := act a; bitW := bitW a; bitA := bitA a;
     use_gemm := g; use_cudnn_on_gpu := use_cudnn_on_gpu a;
     data_format := data_format a; W_init := W_init a; b_init := b_init a;
     W_init_args := W_init_args a; b_init_args := b_init_args a;
     name := name a |}.

Definition with_strides (a : Args) (s : list Z) : Args :=
  {| prev_layer := prev_layer a; n_filter := n_filter a;
     filter_size := filter_size a; strides := s;
     padding := padding a; act := act a; bitW := bitW a; bitA := bitA a;
     use_gemm := use_gemm a; use_cudnn_on_gpu := use_cudnn_on_gpu a;
     data_format := data_format a; W_init := W_init a; b_init := b_init a;
     W_init_args := W_init_args a; b_init_args := b_init_args a;
     name := name a |}.

Definition with_padding (a : Args) (p : string) : Args :=
  {| prev_layer := prev_layer a; n_filter := n_filter a;
     filter_size := filter_size a; strides := strides a;
     padding := p; act := act a; bitW := bitW a; bitA := bitA a;
     use_gemm := use_gemm a; use_cudnn_on_gpu := use_cudnn_on_gpu a;
     data_format := data_format a; W_init := W_init a; b_init := b_init a;
     W_init_args := W_init_args a; b_init_args := b_init_args a;
     name := name a |}.

Definition with_filter_size (a : Args) (fs : list Z) : Args :=
  {| prev_layer := prev_layer a; n_filter := n_filter a;
     filter_size := fs; strides := strides a;
     padding := padding a; act := act a; bitW := bitW a; bitA := bitA a;
     use_gemm := use_gemm a; use_cudnn_on_gpu := use_cudnn_on_gpu a;
     data_format := data_format a; W_init := W_init a; b_init := b_init a;
     W_init_args := W_init_args a; b_init_args := b_init_args a;
     name := name a |}.

(** A previous layer whose outputs are a scalar: the static shape is known
    and has no dimension. *)
Definition example_prev_scalar : PrevLayer :=
  {| prev_outputs := Upstream "input" float32;
     prev_outputs_shape := Some [];
     prev_all_layers := [Upstream "input" float32];
     prev_all_params := [] |}.

(** The record of line 103 and the call of line 110 in a trace. *)
Definition is_log_info (e : Event) : bool :=
  match e with EvLogInfo _ _ _ _ _ _ => true | _ => false end.

Definition is_quantize_active (e : Event) : bool :=
  match e with EvQuantizeActive _ _ => true | _ => false end.

(** The calls of [tf.nn.bias_add] and the requests for the bias variable
    in a trace. *)
Definition is_bias_add (e : Event) : bool :=
  match e with EvBiasAdd _ _ => true | _ => false end.

Definition is_bias_request (e : Event) : bool :=
  match e with
  | EvGetVariable _ nm _ _ _ _ => String.eqb nm "b_conv2d"
  | _ => false
  end.


End QuantizedConv2d.

(* ===================================================================== *)
(** * The quantisation transforms on floating-point numbers               *)
(* ===================================================================== *)

Module Float.
Local Open Scope Z_scope.

(** The tensors the transforms work on hold IEEE 754 binary numbers of the
    element type of the graph node.  The numbers and their operations are
    those of [SpecFloat]: rounding to nearest, ties to even, with
    infinities and NaN. *)
Record Format := {
  prec : Z;   (* bits of the significand, the implicit one included *)
  emax : Z    (* exponent of the infinities *)
}.

Definition binary16 : Format := {| prec := 11; emax := 16 |}.
Definition binary32 : Format := {| prec := 24; emax := 128 |}.
Definition binary64 : Format := {| prec := 53; emax := 1024 |}.

Definition format_of (dt : Graph.DType) : Format :=
  match dt with
  | Graph.float16 => binary16
  | Graph.float32 => binary32
  | Graph.float64 => binary64
  end.

(** A dense tensor: its shape and its elements in row-major order. *)
Record Tensor := {
  shape : list nat;
  data : list spec_float
}.

Definition map_tensor (f : spec_float -> spec_float) (X : Tensor) : Tensor :=
  {| shape := shape X; data := map f (data X) |}.

(** The all-zero tensor of a shape. *)
Definition zeros (sh : list nat) : Tensor :=
  {| shape := sh;
     data := repeat (S754_zero false) (fold_right Nat.mul 1%nat sh) |}.


Definition is_nan (x : spec_float) : bool :=
  match x with S754_nan => true | _ => false end.

(** [X == Y] on tensors: the same shape, and elements that are equal as
    IEEE numbers (a NaN is equal to nothing, [-0] is equal to [+0]). *)
Fixpoint all_equal (l l' : list spec_float) : bool :=
  match l, l' with
  | [], [] => true
  | x :: r, y :: r' => SFeqb x y && all_equal r r'
  | _, _ => false
  end.

Definition tensor_eqb (X Y : Tensor) : bool :=
  (if list_eq_dec Nat.eq_dec (shape X) (shape Y) then true else false)
  && all_equal (data X) (data Y).

Section Transforms.
Variable fmt : Format.

Definition mul := SFmul (prec fmt) (emax fmt).
Definition div := SFdiv (prec fmt) (emax fmt).
Definition add := SFadd (prec fmt) (emax fmt).
Definition sub := SFsub (prec fmt) (emax fmt).

(** An integer and one half as numbers of the format. *)
Definition of_Z (k : Z) : spec_float :=
  binary_normalize (prec fmt) (emax fmt) k 0 false.

Definition half : spec_float :=
  binary_normalize (prec fmt) (emax fmt) 1 (-1) false.

(** [round]: to the nearest integer, a tie going to the even neighbour
    (the rounding of [tf.round] and of Python's [round]); zeros,
    infinities and NaN are kept. *)
Definition round (x : spec_float) : spec_float :=
  match x with
  | S754_finite s m e =>
      if 0 <=? e then x
      else
        let d := 2 ^ (- e) in
        let q := Z.pos m / d in
        let r := Z.pos m mod d in
        let k := match 2 * r ?= d with
                 | Lt => q
                 | Gt => q + 1
                 | Eq => if Z.even q then q else q + 1
                 end in
        binary_normalize (prec fmt) (emax fmt) (cond_Zopp s k) 0 s
  | _ => x
  end.

(** [2^b - 1], the number of steps between the [2^b] levels. *)
Definition steps (b : Z) : spec_float := of_Z (2 ^ b - 1).

(** [round(x * (2^b - 1)) / (2^b - 1)]. *)
Definition quantize_levels (b : Z) (x : spec_float) : spec_float :=
  div (round (mul x (steps b))) (steps b).

(** Modelled from the spec: [quantize_active_overflow] of
    [tensorlayer.layers.utils], missing from the sources.  Section 4.2:
    "quantize X to 2^bitA uniform levels over its assumed fixed range using
    round(X * (2^bitA - 1)) / (2^bitA - 1)"; no normalisation by the
    dynamic range, no clipping. *)
Definition quantize_active_overflow (X : Tensor) (bitA : Z) : Tensor :=
  map_tensor (quantize_levels bitA) X.

(** The larger of two numbers, a NaN winning over every number. *)
Definition fmax (x y : spec_float) : spec_float :=
  if is_nan x then x
  else if is_nan y then y
  else if SFltb x y then y else x.

(** [max(abs(W))] over the whole tensor; an empty tensor has no element to
    scale, and 0 stands for its maximum. *)
Definition reduce_max_abs (l : list spec_float) : spec_float :=
  fold_right (fun x m => fmax (SFabs x) m) (S754_zero false) l.

(** The mean of [abs(W)] over the whole tensor. *)
Definition reduce_mean_abs (l : list spec_float) : spec_float :=
  div (fold_right (fun x s => add (SFabs x) s) (S754_zero false) l)
      (of_Z (Z.of_nat (List.length l))).

(** [sign], with [sign(0) = +1]. *)
Definition sign (x : spec_float) : spec_float :=
  if SFltb x (S754_zero false) then of_Z (-1) else of_Z 1.

(** The scaling constant of the binary branch, which section 9 leaves open
    between the two. *)
Inductive BinaryScale := MaxAbs | MeanAbs.

Definition binary_scale (rule : BinaryScale) (l : list spec_float)
    : spec_float :=
  match rule with
  | MaxAbs => reduce_max_abs l
  | MeanAbs => reduce_mean_abs l
  end.

(** Step 3 of section 4.1 on one element, for the scale [s]:
    [W' = w / (2*s) + 0.5], [W'_q] its quantisation to [2^bitW] levels,
    output [(W'_q - 0.5) * 2 * s]. *)
Definition quantize_scaled (bitW : Z) (s w : spec_float) : spec_float :=
  let w' := add (div w (mul (of_Z 2) s)) half in
  let q := quantize_levels bitW w' in
  mul (mul (sub q half) (of_Z 2)) s.

(** Modelled from the spec: [quantize_weight_overflow] of
    [tensorlayer.layers.utils], missing from the sources.  The algorithm
    of section 4.1: (1) [maxabs = max(abs(W))]; (2) for [bitW == 1] the
    output is [sign(W)] times the scaling constant; (3) otherwise the
    scaled quantisation to [2^bitW] levels.  The section goes on to ask of
    implementers a guard for [maxabs == 0]; the algorithm has none. *)
Definition quantize_weight_overflow (rule : BinaryScale) (W : Tensor)
    (bitW : Z) : Tensor :=
  let maxabs := reduce_max_abs (data W) in
  if bitW =? 1
  then let c := binary_scale rule (data W) in
       map_tensor (fun w => mul (sign w) c) W
  else map_tensor (quantize_scaled bitW maxabs) W.

End Transforms.

(** Weights to run the transforms on: the [2 x 2 x 1 x 2] filter of the
    scenario of section 8, all zero, and a filter with the values
    [0.5, -0.25, 1, 0.75]. *)
Definition zero_filter : Tensor := zeros [2; 2; 1; 2]%nat.

Definition sample_filter : Tensor :=
  {| shape := [2; 2; 1; 1]%nat;
     data := map (fun me => binary_normalize 24 128 (fst me) (snd me) false)
               [(1, -1); (-1, -2); (1, 0); (3, -2)] |}.

End Float.


(* ===================================================================== *)
(** * Facts about the constructor                                         *)
(* ===================================================================== *)

Module LayerFacts.
Import Graph QuantizedConv2d.
Local Open Scope string_scope.
Local Open Scope Z_scope.

#[local] Arguments padding_supported : simpl never.
#[local] Arguments join_scope : simpl never.

(** Runs the monadic code of the constructor on the world at hand. *)
Ltac run :=
  cbv beta iota zeta delta
    [bind ret raise emit get_self modify_self get_inputs get_outputs
     set_inputs set_outputs getitem nth_error with_variable_scope
     logging_info logging_warning quantize_active_overflow
     quantize_weight_overflow tf_nn_conv2d tf_nn_bias_add Layer___init__
     _get_tf_variable _apply_activation _add_layers _add_params
     build_forward __init__ construct new_object args_or_empty
     after_quantize conv_rejected built add_events
     weight_refused bias_refused bias_add_refused
     weight_variable convolution bias_variable
     self variable_scope trace Graph.name Graph.act inputs outputs
     Graph.W_init_args Graph.b_init_args _local_weights all_layers all_params
     app last fst snd];
  cbn [dtype].

(** Uses what the primitives make of one of the calls. *)
Ltac answer H :=
  unfold weight_error, conv_error, bias_error, add_error, convolution,
    bias_variable, weight_variable, args_or_empty in H;
  cbn [dtype] in H; rewrite H.

Lemma len_is_2 (l : list Z) :
  (len l =? 2) = true -> exists s0 s1, l = [s0; s1].
Proof.
  intros H. apply Z.eqb_eq in H. unfold len in H.
  destruct l as [|s0 [|s1 [|s2 t]]]; cbn [List.length] in H; try lia.
  eauto.
Qed.

Lemma infer_input_channels_eq a w :
  infer_input_channels a w =
    match static_channels (prev_outputs_shape (prev_layer a)) with
    | None => (Raise (IndexError "list index out of range"), w)
    | Some None => (Ok 1, add_events w [warning])
    | Some (Some v) => (Ok v, w)
    end.
Proof.
  unfold infer_input_channels, static_input_channels, try_except_TypeError,
    static_channels, shape_last.
  destruct (prev_outputs_shape (prev_layer a)) as [dims|]; cbn.
  - destruct (rev dims) as [|[v|] ?]; reflexivity.
  - reflexivity.
Qed.

(** Runs the constructor up to the inference of the input channels. *)
Ltac run_to_channels G S C :=
  unfold construct, __init__; cbn; rewrite G; cbn; rewrite S; cbn;
  unfold bind at 1; rewrite infer_input_channels_eq; cbn; rewrite C.

Section Runs.
Variables (tf : Primitives) (outer : string) (a : Args).

Lemma construct_use_gemm :
  use_gemm a = true ->
  construct tf outer a =
    (Raise (Exception "TODO. The current version use tf.matmul for inferencing."),
     after_quantize outer a).
Proof.
  intros G. unfold construct, __init__. cbn. rewrite G. reflexivity.
Qed.

Lemma construct_bad_strides :
  use_gemm a = false -> len (strides a) <> 2 ->
  construct tf outer a =
    (Raise (ValueError "len(strides) should be 2."), after_quantize outer a).
Proof.
  intros G L. apply Z.eqb_neq in L. unfold construct, __init__. cbn.
  rewrite G. cbn. rewrite L. reflexivity.
Qed.

Lemma construct_no_dimension s0 s1 :
  use_gemm a = false -> strides a = [s0; s1] ->
  static_channels (prev_outputs_shape (prev_layer a)) = None ->
  construct tf outer a =
    (Raise (IndexError "list index out of range"), after_quantize outer a).
Proof.
  intros G S C. run_to_channels G S C.
  unfold after_quantize. rewrite S. reflexivity.
Qed.

Lemma construct_filter_size s0 s1 d :
  use_gemm a = false -> strides a = [s0; s1] ->
  static_channels (prev_outputs_shape (prev_layer a)) = Some d ->
  nth_error (filter_size a) 1 = None ->
  construct tf outer a =
    (Raise (IndexError "tuple index out of range"),
     add_events (after_quantize outer a) (snd (channels_and_warning d))).
Proof.
  intros G S C F. run_to_channels G S C.
  unfold after_quantize, add_events. rewrite S.
  destruct (filter_size a) as [|fh [|fw rest]]; [| |discriminate];
    destruct d; reflexivity.
Qed.

Section Valid.
Variables (s0 s1 : Z) (d : Dimension) (fh fw : Z) (rest : list Z).
Hypothesis G : use_gemm a = false.
Hypothesis S : strides a = [s0; s1].
Hypothesis C : static_channels (prev_outputs_shape (prev_layer a)) = Some d.
Hypothesis F : filter_size a = fh :: fw :: rest.

Let ic := fst (channels_and_warning d).
Let warn := snd (channels_and_warning d).

Lemma construct_weight_refused reason :
  weight_error tf outer a ic fh fw = Some reason ->
  construct tf outer a =
    (Raise (Propagated "tf.get_variable" reason),
     weight_refused outer a ic fh fw warn).
Proof.
  intros W. subst ic warn. run_to_channels G S C.
  destruct d; cbn in *; rewrite F; run; answer W; rewrite ?S, ?F; reflexivity.
Qed.

Lemma construct_padding :
  weight_error tf outer a ic fh fw = None ->
  padding_supported (padding a) = false ->
  construct tf outer a =
    (Raise (ValueError "Attr padding of Conv2D Op not in: SAME, VALID"),
     conv_rejected outer a ic fh fw s0 s1 warn).
Proof.
  intros W P. subst ic warn. run_to_channels G S C.
  destruct d; cbn in *; rewrite F; run; answer W; rewrite P; rewrite ?S, ?F;
    reflexivity.
Qed.

Lemma construct_conv_refused reason :
  weight_error tf outer a ic fh fw = None ->
  padding_supported (padding a) = true ->
  conv_error tf outer a ic fh fw s0 s1 = Some reason ->
  construct tf outer a =
    (Raise (Propagated "tf.nn.conv2d" reason),
     conv_rejected outer a ic fh fw s0 s1 warn).
Proof.
  intros W P V. subst ic warn. run_to_channels G S C.
  destruct d; cbn in *; rewrite F; run; answer W; rewrite P; answer V;
    rewrite ?S, ?F; reflexivity.
Qed.

Lemma construct_bias_refused bi reason :
  weight_error tf outer a ic fh fw = None ->
  padding_supported (padding a) = true ->
  conv_error tf outer a ic fh fw s0 s1 = None ->
  b_init a = Some bi ->
  bias_error tf outer a bi = Some reason ->
  construct tf outer a =
    (Raise (Propagated "tf.get_variable" reason),
     bias_refused outer a ic fh fw s0 s1 warn bi).
Proof.
  intros W P V B E. subst ic warn. run_to_channels G S C.
  destruct d; cbn in *; rewrite F; run; answer W; rewrite P; answer V;
    rewrite B; run; answer E; rewrite ?S, ?F; reflexivity.
Qed.

Lemma construct_bias_add_refused bi reason :
  weight_error tf outer a ic fh fw = None ->
  padding_supported (padding a) = true ->
  conv_error tf outer a ic fh fw s0 s1 = None ->
  b_init a = Some bi ->
  bias_error tf outer a bi = None ->
  add_error tf outer a ic fh fw s0 s1 bi = Some reason ->
  construct tf outer a =
    (Raise (Propagated "tf.nn.bias_add" reason),
     bias_add_refused outer a ic fh fw s0 s1 warn bi).
Proof.
  intros W P V B E A. subst ic warn. run_to_channels G S C.
  destruct d; cbn in *; rewrite F; run; answer W; rewrite P; answer V;
    rewrite B; run; answer E; answer A; rewrite ?S, ?F; reflexivity.
Qed.

Lemma construct_built :
  weight_error tf outer a ic fh fw = None ->
  padding_supported (padding a) = true ->
  conv_error tf outer a ic fh fw s0 s1 = None ->
  (forall bi, b_init a = Some bi ->
     bias_error tf outer a bi = None /\
     add_error tf outer a ic fh fw s0 s1 bi = None) ->
  construct tf outer a = (Ok tt, built outer a ic fh fw s0 s1 warn).
Proof.
  intros W P V B. subst ic warn. run_to_channels G S C.
  destruct (b_init a) as [bi|] eqn:Bi.
  - destruct (B bi eq_refl) as [E A].
    destruct d; cbn in *; rewrite F; run; answer W; rewrite P; answer V;
      rewrite Bi; run; answer E; answer A; destruct (act a); run;
      rewrite ?S, ?F, ?Bi; reflexivity.
  - destruct d; cbn in *; rewrite F; run; answer W; rewrite P; answer V;
      rewrite Bi; run; destruct (act a); run; rewrite ?S, ?F, ?Bi; reflexivity.
Qed.

End Valid.

(** The constructor ends in one of the ways of [outcome]. *)
Lemma construct_outcome :
  outcome tf outer a (fst (construct tf outer a)) (snd (construct tf outer a)).
Proof.
  destruct (use_gemm a) eqn:G.
  { rewrite construct_use_gemm by assumption. now constructor. }
  destruct (len (strides a) =? 2) eqn:L.
  2:{ apply Z.eqb_neq in L. rewrite construct_bad_strides by assumption.
      now constructor. }
  apply len_is_2 in L. destruct L as (s0 & s1 & S).
  destruct (static_channels (prev_outputs_shape (prev_layer a))) as [d|] eqn:C.
  2:{ erewrite construct_no_dimension by eassumption.
      eapply out_no_dimension; eassumption. }
  destruct (nth_error (filter_size a) 1) as [fw|] eqn:F.
  2:{ erewrite construct_filter_size by eassumption.
      eapply out_filter_size; eassumption. }
  destruct (filter_size a) as [|fh [|fw' rest]] eqn:F'; try discriminate.
  destruct (weight_error tf outer a (fst (channels_and_warning d)) fh fw')
    as [r|] eqn:W.
  { erewrite construct_weight_refused by eassumption.
    eapply out_weight_refused; eassumption. }
  destruct (padding_supported (padding a)) eqn:P.
  2:{ erewrite construct_padding by eassumption.
      eapply out_padding; eassumption. }
  destruct (conv_error tf outer a (fst (channels_and_warning d)) fh fw' s0 s1)
    as [r|] eqn:V.
  { erewrite construct_conv_refused by eassumption.
    eapply out_conv_refused; eassumption. }
  destruct (b_init a) as [bi|] eqn:B.
  2:{ erewrite construct_built; try eassumption.
      - eapply out_built; try eassumption. intros bi E. congruence.
      - intros bi E. congruence. }
  destruct (bias_error tf outer a bi) as [r|] eqn:E.
  { erewrite construct_bias_refused by eassumption.
    eapply out_bias_refused; eassumption. }
  destruct (add_error tf outer a (fst (channels_and_warning d)) fh fw' s0 s1 bi)
    as [r|] eqn:A.
  { erewrite construct_bias_add_refused by eassumption.
    eapply out_bias_add_refused; eassumption. }
  assert (K : forall bi', b_init a = Some bi' ->
            bias_error tf outer a bi' = None /\
            add_error tf outer a (fst (channels_and_warning d)) fh fw' s0 s1 bi'
              = None).
  { intros bi' E'. rewrite B in E'. injection E' as <-. split; assumption. }
  erewrite construct_built; try eassumption.
  eapply out_built; eassumption.
Qed.

Lemma construct_inv r w :
  construct tf outer a = (r, w) -> outcome tf outer a r w.
Proof.
  intros H. pose proof construct_outcome as O.
  rewrite H in O. exact O.
Qed.

End Runs.

Lemma static_channels_some (s : TensorShape) :
  s <> Some [] -> exists d, static_channels s = Some d.
Proof.
  intros H. destruct s as [dims|]; cbn; [|eauto].
  destruct dims as [|d0 dims] using rev_ind; [contradiction|].
  rewrite rev_app_distr. cbn. eauto.
Qed.

Lemma static_channels_unknown a w m :
  fst (static_input_channels a w) = Raise (TypeError m) ->
  static_channels (prev_outputs_shape (prev_layer a)) = Some None.
Proof.
  unfold static_input_channels, static_channels, shape_last.
  destruct (prev_outputs_shape (prev_layer a)) as [dims|]; cbn; [|reflexivity].
  destruct (rev dims) as [|[v|] ?]; cbn; intros H; try discriminate; reflexivity.
Qed.

Lemma filter_size_long (l : list Z) :
  2 <= len l -> exists fh fw rest, l = fh :: fw :: rest.
Proof.
  unfold len. destruct l as [|fh [|fw rest]]; cbn [List.length]; try lia. eauto.
Qed.

Lemma padding_supported_true (p : string) :
  padding_supported p = true <-> p = "SAME" \/ p = "VALID".
Proof.
  unfold padding_supported. rewrite orb_true_iff, !String.eqb_eq. tauto.
Qed.

Lemma padding_supported_false (p : string) :
  padding_supported p = false <-> p <> "SAME" /\ p <> "VALID".
Proof.
  unfold padding_supported. rewrite orb_false_iff, !String.eqb_neq. tauto.
Qed.

(** C1.  A construction that succeeds has called its collaborators in
    this order: the inputs are quantised with [bitA]; the weight variable
    is created; it is quantised with [bitW]; the convolution primitive is
    applied to the quantised inputs and the quantised weight; when [b_init]
    is not [None] the bias variable is created and added as it is; the
    activation is applied (the identity when [act] is [None]); the output
    and then the parameters are registered. *)
Theorem forward_steps_in_order (tf : Primitives) (outer : string) (a : Args) (w' : World) :
  construct tf outer a = (Ok tt, w') ->
  exists fh fw ic s0 s1,
    let x := prev_outputs (prev_layer a) in
    let xq := QuantizeActiveOverflow x (bitA a) in
    let scope := join_scope outer (name a) in
    let W := Var scope "W_conv2d" (ShapeTuple [fh; fw; ic; n_filter a])
               (W_init a) (dtype x) (args_or_empty (W_init_args a)) in
    let Wq := QuantizeWeightOverflow W (bitW a) in
    let conv := Conv2d xq Wq [1; s0; s1; 1] (padding a) (use_cudnn_on_gpu a)
                  (data_format a) in
    let b := fun bi => Var scope "b_conv2d" (ShapeInt (n_filter a)) bi
                         (dtype x) (args_or_empty (b_init_args a)) in
    let biased := match b_init a with
                  | Some bi => BiasAdd conv (b bi) "bias_add"
                  | None => conv
                  end in
    let out := match act a with
               | Some f => Activation f biased
               | None => biased
               end in
    calls (trace w') =
      ([EvQuantizeActive x (bitA a);
       EvGetVariable scope "W_conv2d" (ShapeTuple [fh; fw; ic; n_filter a])
         (W_init a) (dtype x) (args_or_empty (W_init_args a));
       EvQuantizeWeight W (bitW a);
       EvConv2d xq Wq [1; s0; s1; 1] (padding a) (use_cudnn_on_gpu a)
         (data_format a)] ++
      match b_init a with
      | Some bi =>
          [EvGetVariable scope "b_conv2d" (ShapeInt (n_filter a)) bi (dtype x)
             (args_or_empty (b_init_args a));
           EvBiasAdd conv (b bi)]
      | None => []
      end ++
      [EvApplyActivation biased; EvAddLayers out;
       EvAddParams (W :: match b_init a with Some bi => [b bi] | None => [] end)])%list
    /\ outputs (self w') = Some out.
Proof.
  intros H. apply construct_inv in H. inversion H; subst; clear H.
  exists fh, fw, (fst (channels_and_warning d)), s0, s1. cbn zeta.
  unfold built. cbn [trace self outputs after_quantize]. split; [|reflexivity].
  destruct d; destruct (b_init a); reflexivity.
Qed.

Lemma forward_steps_in_order_witness :
  construct accepting "" (default_args example_prev)
    = (Ok tt, snd (construct accepting "" (default_args example_prev))) /\
  exists fh fw ic s0 s1,
    calls (trace (snd (construct accepting "" (default_args example_prev)))) =
      let x := Upstream "input" float32 in
      let xq := QuantizeActiveOverflow x 8 in
      let W := Var "quan_cnn2d" "W_conv2d" (ShapeTuple [fh; fw; ic; 32])
                 (W_init (default_args example_prev)) float32 [] in
      let Wq := QuantizeWeightOverflow W 8 in
      let conv := Conv2d xq Wq [1; s0; s1; 1] "SAME" true None in
      let b := Var "quan_cnn2d" "b_conv2d" (ShapeInt 32)
                 {| initializer_repr := "constant_initializer(value=0.0)" |}
                 float32 [] in
      [EvQuantizeActive x 8;
       EvGetVariable "quan_cnn2d" "W_conv2d" (ShapeTuple [fh; fw; ic; 32])
         (W_init (default_args example_prev)) float32 [];
       EvQuantizeWeight W 8;
       EvConv2d xq Wq [1; s0; s1; 1] "SAME" true None;
       EvGetVariable "quan_cnn2d" "b_conv2d" (ShapeInt 32)
         {| initializer_repr := "constant_initializer(value=0.0)" |} float32 [];
       EvBiasAdd conv b;
       EvApplyActivation (BiasAdd conv b "bias_add");
       EvAddLayers (BiasAdd conv b "bias_add");
       EvAddParams [W; b]].
Proof.
  assert (H : construct accepting "" (default_args example_prev)
               = (Ok tt, snd (construct accepting "" (default_args example_prev))))
    by (vm_compute; reflexivity).
  split; [exact H|].
  destruct (forward_steps_in_order accepting "" (default_args example_prev) _ H)
    as (fh & fw & ic & s0 & s1 & T & _).
  exists fh, fw, ic, s0, s1. exact T.
Defined.


(** C3.  With [use_gemm] true, or with strides that have not exactly two
    components, the constructor raises while it runs: the exception of
    the unimplemented path for [use_gemm], which is tested first, and a
    [ValueError] for the strides otherwise.  Nothing of the forward graph
    exists then: no variable, no convolution, no output. *)
Theorem config_rejected_at_construction (tf : Primitives) (outer : string) (a : Args) :
  use_gemm a = true \/ len (strides a) <> 2 ->
  exists e w',
    construct tf outer a = (Raise e, w') /\
    (use_gemm a = true ->
     e = Exception "TODO. The current version use tf.matmul for inferencing.") /\
    (use_gemm a = false -> e = ValueError "len(strides) should be 2.") /\
    outputs (self w') = None /\
    _local_weights (self w') = [] /\
    calls (trace w') = [EvQuantizeActive (prev_outputs (prev_layer a)) (bitA a)].
Proof.
  intros H. destruct (use_gemm a) eqn:G.
  - eexists _, _. split; [now apply construct_use_gemm|].
    repeat split; try reflexivity; discriminate.
  - destruct H as [H|H]; [discriminate|].
    eexists _, _. split; [now apply construct_bad_strides|].
    repeat split; try reflexivity; discriminate.
Qed.

Lemma config_rejected_at_construction_witness :
  (use_gemm (with_strides (default_args example_prev) [1; 1; 1; 1]) = true \/
   len (strides (with_strides (default_args example_prev) [1; 1; 1; 1])) <> 2) /\
  exists e w',
    construct accepting "" (with_strides (default_args example_prev) [1; 1; 1; 1])
      = (Raise e, w') /\
    e = ValueError "len(strides) should be 2.".
Proof.
  assert (H : use_gemm (with_strides (default_args example_prev) [1; 1; 1; 1]) = true \/
              len (strides (with_strides (default_args example_prev) [1; 1; 1; 1])) <> 2)
    by (right; vm_compute; discriminate).
  split; [exact H|].
  destruct (config_rejected_at_construction accepting ""
              (with_strides (default_args example_prev) [1; 1; 1; 1]) H)
    as (e & w' & C & _ & V & _).
  exists e, w'. split; [exact C|]. apply V. reflexivity.
Defined.

(** C10.  When the constructor rejects [use_gemm] or the strides, line 110
    has already run: [self.inputs], which the base class had set to the
    previous layer's outputs, holds their [bitA]-quantised version when
    the exception leaves the constructor. *)
Theorem inputs_quantized_before_rejection (tf : Primitives) (outer : string) (a : Args) :
  use_gemm a = true \/ len (strides a) <> 2 ->
  exists e w',
    construct tf outer a = (Raise e, w') /\
    (forall w0,
       inputs (self (snd (Layer___init__ (prev_layer a) (act a) (W_init_args a)
                            (b_init_args a) (name a) w0)))
         = Some (prev_outputs (prev_layer a))) /\
    inputs (self w')
      = Some (QuantizeActiveOverflow (prev_outputs (prev_layer a)) (bitA a)) /\
    In (EvQuantizeActive (prev_outputs (prev_layer a)) (bitA a)) (trace w').
Proof.
  intros H.
  assert (E : exists e, construct tf outer a = (Raise e, after_quantize outer a)).
  { destruct (use_gemm a) eqn:G.
    - eexists. now apply construct_use_gemm.
    - destruct H as [H|H]; [discriminate|]. eexists. now apply construct_bad_strides. }
  destruct E as (e & E). exists e, (after_quantize outer a).
  split; [exact E|]. split; [reflexivity|]. split; [reflexivity|].
  cbn. auto.
Qed.

Lemma inputs_quantized_before_rejection_witness :
  (use_gemm (with_use_gemm (default_args example_prev) true) = true \/
   len (strides (with_use_gemm (default_args example_prev) true)) <> 2) /\
  exists e w',
    construct accepting "" (with_use_gemm (default_args example_prev) true) = (Raise e, w') /\
    inputs (self w') = Some (QuantizeActiveOverflow (Upstream "input" float32) 8).
Proof.
  assert (H : use_gemm (with_use_gemm (default_args example_prev) true) = true \/
              len (strides (with_use_gemm (default_args example_prev) true)) <> 2)
    by (left; reflexivity).
  split; [exact H|].
  destruct (inputs_quantized_before_rejection accepting ""
              (with_use_gemm (default_args example_prev) true) H)
    as (e & w' & C & _ & I & _).
  exists e, w'. split; [exact C|exact I].
Defined.

(** Settles a goal from the membership of an event in the trace of one of
    the worlds of [outcome], by going through the trace. *)
Ltac in_trace :=
  match goal with
  | I : In _ (trace _) |- _ =>
      unfold built, bias_add_refused, bias_refused, conv_rejected,
        weight_refused, add_events, after_quantize, convolution,
        bias_variable, weight_variable in I;
      cbn [trace self] in I;
      try match goal with B : b_init _ = Some _ |- _ => rewrite B in I end;
      revert I;
      repeat match goal with
             | |- context [channels_and_warning ?d] => is_var d; destruct d
             end;
      try destruct (b_init _); cbn; intros I;
      repeat (destruct I as [I|I];
              [try discriminate; try (inversion I; subst; now auto)|]);
      contradiction
  end.

Ltac find_equal :=
  match goal with
  | |- _ \/ _ => first [ left; find_equal | right; find_equal ]
  | |- _ = _ => reflexivity
  end.

(** Finds a call in the trace of one of the worlds of [outcome]. *)
Ltac member :=
  unfold built, bias_add_refused, bias_refused, conv_rejected,
    weight_refused, add_events, after_quantize, convolution,
    bias_variable, weight_variable;
  cbn [trace self channels_and_warning warning fst snd];
  rewrite ?in_app_iff; cbn [In]; find_equal.

(** Closes a case in which a primitive has refused a call that, by [A],
    it accepts; [A] speaks of the requests for variables. *)
Ltac refused_request A :=
  exfalso;
  match goal with
  | W : weight_error _ _ _ _ _ _ = Some _ |- _ =>
      unfold weight_error in W; rewrite A in W
  | E : bias_error _ _ _ _ = Some _ |- _ =>
      unfold bias_error in E; rewrite A in E
  end;
  [ match goal with N : None = Some _ |- _ => discriminate N end
  | member ].

(** The same, where [A] speaks of every call in the trace. *)
Ltac refused A :=
  let Av := fresh "Av" in
  let Ac := fresh "Ac" in
  let Ab := fresh "Ab" in
  pose proof (fun s n sh i d k H => A (EvGetVariable s n sh i d k) H) as Av;
  pose proof (fun x f st p c df H => A (EvConv2d x f st p c df) H) as Ac;
  pose proof (fun v b H => A (EvBiasAdd v b) H) as Ab;
  cbn [call_error] in Av, Ac, Ab;
  exfalso;
  match goal with
  | W : weight_error _ _ _ _ _ _ = Some _ |- _ =>
      unfold weight_error in W; rewrite Av in W
  | V : conv_error _ _ _ _ _ _ _ _ = Some _ |- _ =>
      unfold conv_error, weight_variable in V; rewrite Ac in V
  | E : bias_error _ _ _ _ = Some _ |- _ =>
      unfold bias_error in E; rewrite Av in E
  | E : add_error _ _ _ _ _ _ _ _ _ = Some _ |- _ =>
      unfold add_error in E; rewrite Ab in E
  end;
  [ match goal with N : None = Some _ |- _ => discriminate N end
  | member ].

(** C4.  A padding other than "SAME" and "VALID" makes the construction
    raise.  The constructor has no test of its own: it hands the padding
    to the convolution primitive as it is, and when the construction gets
    as far as that call (valid arguments before it, weight variable
    granted) the exception is the primitive's [ValueError] for the
    padding.  With "SAME" or "VALID" that exception never occurs, and the
    construction succeeds when nothing else is wrong with the arguments
    and the primitives accept the calls it makes. *)
Theorem padding_validated (tf : Primitives) (outer : string) (a : Args) :
  (padding a <> "SAME" -> padding a <> "VALID" ->
   exists e w', construct tf outer a = (Raise e, w')) /\
  (padding a <> "SAME" -> padding a <> "VALID" ->
   use_gemm a = false -> len (strides a) = 2 ->
   prev_outputs_shape (prev_layer a) <> Some [] -> 2 <= len (filter_size a) ->
   (forall scope nm sh i dt k,
      In (EvGetVariable scope nm sh i dt k) (trace (snd (construct tf outer a))) ->
      get_variable_error tf scope nm sh i dt k = None) ->
   fst (construct tf outer a)
     = Raise (ValueError "Attr padding of Conv2D Op not in: SAME, VALID")) /\
  (padding a = "SAME" \/ padding a = "VALID" ->
   fst (construct tf outer a)
     <> Raise (ValueError "Attr padding of Conv2D Op not in: SAME, VALID")) /\
  (padding a = "SAME" \/ padding a = "VALID" ->
   use_gemm a = false -> len (strides a) = 2 ->
   prev_outputs_shape (prev_layer a) <> Some [] -> 2 <= len (filter_size a) ->
   (forall e, In e (trace (snd (construct tf outer a))) ->
      call_error tf e = None) ->
   fst (construct tf outer a) = Ok tt) /\
  (forall x f st p c df,
     In (EvConv2d x f st p c df) (trace (snd (construct tf outer a))) ->
     p = padding a).
Proof.
  pose proof (construct_outcome tf outer a) as O.
  destruct (construct tf outer a) as [r w]. cbn [fst snd] in *.
  split; [|split; [|split; [|split]]].
  - intros N1 N2.
    assert (P : padding_supported (padding a) = false)
      by (apply padding_supported_false; tauto).
    inversion O; subst; try (eexists _, _; reflexivity); congruence.
  - intros N1 N2 G L Sh F A.
    assert (P : padding_supported (padding a) = false)
      by (apply padding_supported_false; tauto).
    apply static_channels_some in Sh. destruct Sh as (d' & C').
    apply filter_size_long in F. destruct F as (fh' & fw' & rest' & F').
    inversion O; subst; clear O; try reflexivity; try congruence.
    + rewrite F' in *. discriminate.
    + refused_request A.
  - intros P. apply padding_supported_true in P.
    inversion O; subst; try discriminate. congruence.
  - intros P G L Sh F A. apply padding_supported_true in P.
    apply static_channels_some in Sh. destruct Sh as (d' & C').
    apply filter_size_long in F. destruct F as (fh' & fw' & rest' & F').
    inversion O; subst; clear O; try reflexivity; try congruence.
    + rewrite F' in *. discriminate.
    + refused A.
    + refused A.
    + refused A.
    + refused A.
  - intros x f st p c df I.
    inversion O; subst; clear O; in_trace.
Qed.

Lemma padding_validated_witness :
  (exists e w',
     construct accepting ""
       (with_padding (default_args example_prev) "FULL") = (Raise e, w')) /\
  fst (construct accepting "" (with_padding (default_args example_prev) "FULL"))
    = Raise (ValueError "Attr padding of Conv2D Op not in: SAME, VALID") /\
  fst (construct accepting "" (with_padding (default_args example_prev) "VALID"))
    = Ok tt.
Proof.
  destruct (padding_validated accepting ""
              (with_padding (default_args example_prev) "FULL"))
    as (A & B & _).
  destruct (padding_validated accepting ""
              (with_padding (default_args example_prev) "VALID"))
    as (_ & _ & _ & D & _).
  split; [|split].
  - apply A; vm_compute; discriminate.
  - apply B;
      [ vm_compute; discriminate | vm_compute; discriminate | reflexivity
      | reflexivity | discriminate | vm_compute; discriminate
      | reflexivity ].
  - apply D;
      [ right; reflexivity | reflexivity | reflexivity | discriminate
      | vm_compute; discriminate | intros e _; destruct e; reflexivity ].
Defined.

(** C5.  When the conversion of the last static dimension raises a
    [TypeError], lines 118-122 do not fail: they log the warning and give
    1.  That [TypeError] never leaves the constructor, and a construction
    that gets to line 118 goes on with one input channel: it logs the
    warning and asks for a weight of shape [(fh, fw, 1, n_filter)]; it
    succeeds when the padding is supported and the primitives accept the
    calls it makes. *)
Theorem unknown_channels_fall_back (tf : Primitives) (outer : string)
    (a : Args) (m : string) (w0 : World) :
  fst (static_input_channels a w0) = Raise (TypeError m) ->
  (forall w,
     infer_input_channels a w =
       (Ok 1, {| self := self w; variable_scope := variable_scope w;
                 trace := trace w ++
                   [EvLogWarning "[warnings] unknow input channels, set to 1"] |})) /\
  (forall m', fst (construct tf outer a) <> Raise (TypeError m')) /\
  (use_gemm a = false -> len (strides a) = 2 ->
   forall fh fw rest, filter_size a = fh :: fw :: rest ->
     In (EvLogWarning "[warnings] unknow input channels, set to 1")
        (trace (snd (construct tf outer a))) /\
     In (EvGetVariable (join_scope outer (name a)) "W_conv2d"
           (ShapeTuple [fh; fw; 1; n_filter a]) (W_init a)
           (dtype (prev_outputs (prev_layer a)))
           (args_or_empty (W_init_args a)))
        (trace (snd (construct tf outer a))) /\
     (padding_supported (padding a) = true ->
      (forall e, In e (trace (snd (construct tf outer a))) ->
         call_error tf e = None) ->
      fst (construct tf outer a) = Ok tt)).
Proof.
  intros H. apply static_channels_unknown in H.
  split; [|split].
  - intros w. rewrite infer_input_channels_eq, H. reflexivity.
  - intros m' E. pose proof (construct_outcome tf outer a) as O.
    rewrite E in O. inversion O.
  - intros G L fh fw rest F. apply Z.eqb_eq, len_is_2 in L.
    destruct L as (s0 & s1 & S).
    pose proof (construct_outcome tf outer a) as O.
    destruct (construct tf outer a) as [r w]. cbn [fst snd] in *.
    inversion O; subst; clear O; try congruence;
      try match goal with
          | N : len (strides a) <> 2 |- _ =>
              exfalso; apply N; rewrite S; reflexivity
          | N : nth_error (filter_size a) 1 = None |- _ =>
              rewrite F in N; discriminate N
          end;
      match goal with
      | C : static_channels _ = Some ?d |- _ =>
          rewrite H in C; injection C as <-
      end;
      match goal with
      | F' : filter_size a = ?x :: _ :: _ |- _ =>
          is_var x; rewrite F in F'; injection F' as <- <- <-
      end.
    + split; [|split].
      * member.
      * member.
      * intros _ A. refused A.
    + split; [|split].
      * member.
      * member.
      * congruence.
    + split; [|split].
      * member.
      * member.
      * intros _ A. refused A.
    + split; [|split].
      * member.
      * member.
      * intros _ A. refused A.
    + split; [|split].
      * member.
      * member.
      * intros _ A. refused A.
    + split; [|split].
      * member.
      * member.
      * reflexivity.
Qed.

Lemma unknown_channels_fall_back_witness :
  fst (static_input_channels (default_args example_prev_unknown)
         {| self := new_object; variable_scope := ""; trace := [] |})
    = Raise (TypeError "int() argument must be a number, not NoneType") /\
  fst (construct accepting "" (default_args example_prev_unknown)) = Ok tt /\
  In (EvGetVariable "quan_cnn2d" "W_conv2d" (ShapeTuple [3; 3; 1; 32])
        (W_init (default_args example_prev_unknown)) float32 [])
     (trace (snd (construct accepting "" (default_args example_prev_unknown)))).
Proof.
  assert (H : fst (static_input_channels (default_args example_prev_unknown)
                     {| self := new_object; variable_scope := ""; trace := [] |})
                = Raise (TypeError "int() argument must be a number, not NoneType"))
    by (vm_compute; reflexivity).
  split; [exact H|].
  destruct (unknown_channels_fall_back accepting ""
              (default_args example_prev_unknown) _ _ H)
    as (_ & _ & K).
  destruct (K eq_refl eq_refl 3 3 [] eq_refl) as (_ & V & S).
  split; [|exact V].
  apply S; [vm_compute; reflexivity|]. intros e _. destruct e; reflexivity.
Defined.

(** C6.  In a construction that succeeds the quantisation transforms are
    called twice, on the inputs and on the weight variable, never on the
    bias: the bias variable goes into [bias_add] as it is.  The parameters
    registered are the weight variable and, when there is one, the bias
    variable; they are variables, not quantised tensors, and the quantised
    weight that the convolution uses is computed from the registered
    variable in this very construction. *)
Theorem full_precision_parameters_registered (tf : Primitives) (outer : string) (a : Args)
    (w' : World) :
  construct tf outer a = (Ok tt, w') ->
  exists W conv,
    let scope := join_scope outer (name a) in
    let x := prev_outputs (prev_layer a) in
    let b := fun bi => Var scope "b_conv2d" (ShapeInt (n_filter a)) bi
                         (dtype x) (args_or_empty (b_init_args a)) in
    let params := W :: match b_init a with Some bi => [b bi] | None => [] end in
    (exists sh, W = Var scope "W_conv2d" sh (W_init a) (dtype x)
                      (args_or_empty (W_init_args a))) /\
    (forall ps, In (EvAddParams ps) (trace w') -> ps = params) /\
    In (EvAddParams params) (trace w') /\
    all_params (self w') = (prev_all_params (prev_layer a) ++ params)%list /\
    Forall (fun p => is_variable p = true /\ is_quantized p = false) params /\
    ~ In (QuantizeWeightOverflow W (bitW a)) params /\
    filter is_quantize_call (trace w') =
      [EvQuantizeActive x (bitA a); EvQuantizeWeight W (bitW a)] /\
    conv = Conv2d (QuantizeActiveOverflow x (bitA a))
             (QuantizeWeightOverflow W (bitW a))
             [1; nth 0 (strides a) 0; nth 1 (strides a) 0; 1]
             (padding a) (use_cudnn_on_gpu a) (data_format a) /\
    outputs (self w') =
      Some (let biased := match b_init a with
                          | Some bi => BiasAdd conv (b bi) "bias_add"
                          | None => conv
                          end in
            match act a with
            | Some f => Activation f biased
            | None => biased
            end).
Proof.
  intros H. apply construct_inv in H. inversion H; subst; clear H.
  exists (Var (join_scope outer (name a)) "W_conv2d"
            (ShapeTuple [fh; fw; fst (channels_and_warning d); n_filter a])
            (W_init a) (dtype (prev_outputs (prev_layer a)))
            (args_or_empty (W_init_args a))).
  eexists. cbn zeta. unfold built.
  cbn [trace self outputs all_params after_quantize].
  match goal with S : strides a = _ |- _ => rewrite S end.
  split; [eexists; reflexivity|].
  split.
  { intros ps I. revert I. destruct d; destruct (b_init a); cbn; intros I;
      repeat (destruct I as [I|I]; [try discriminate; try (now inversion I)|]);
      contradiction. }
  split.
  { rewrite ?in_app_iff. cbn [In]. find_equal. }
  split; [reflexivity|].
  split.
  { destruct (b_init a); repeat constructor. }
  split.
  { destruct (b_init a); cbn; intros [I|I]; try discriminate;
      try contradiction; destruct I as [I|I]; try discriminate; contradiction. }
  split.
  { destruct d; destruct (b_init a); reflexivity. }
  split; reflexivity.
Qed.

Lemma full_precision_parameters_registered_witness :
  construct accepting "" (default_args example_prev)
    = (Ok tt, snd (construct accepting "" (default_args example_prev))) /\
  exists W,
    all_params (self (snd (construct accepting "" (default_args example_prev)))) =
      [W; Var "quan_cnn2d" "b_conv2d" (ShapeInt 32)
            {| initializer_repr := "constant_initializer(value=0.0)" |}
            float32 []] /\
    is_variable W = true.
Proof.
  assert (H : construct accepting "" (default_args example_prev)
               = (Ok tt, snd (construct accepting "" (default_args example_prev))))
    by (vm_compute; reflexivity).
  split; [exact H|].
  destruct (full_precision_parameters_registered accepting "" (default_args example_prev) _ H)
    as (W & conv & _ & _ & _ & P & F & _).
  exists W. split; [exact P|]. inversion F as [|? ? [V _] _]. exact V.
Defined.

(** C7.  Whenever the weight variable is requested, its shape is the
    tuple [(filter_size[0], filter_size[1], input_channels, n_filter)];
    whenever the convolution primitive is called, the strides it gets are
    [(1, strides[0], strides[1], 1)], for the two strides of the caller.
    A construction that succeeds has made both calls. *)
Theorem weight_shape_and_strides (tf : Primitives) (outer : string) (a : Args)
    (r : result unit) (w' : World) :
  construct tf outer a = (r, w') ->
  (forall scope sh i dt k,
     In (EvGetVariable scope "W_conv2d" sh i dt k) (trace w') ->
     exists fh fw ic,
       nth_error (filter_size a) 0 = Some fh /\
       nth_error (filter_size a) 1 = Some fw /\
       (forall w, fst (infer_input_channels a w) = Ok ic) /\
       sh = ShapeTuple [fh; fw; ic; n_filter a]) /\
  (forall x f st p c df,
     In (EvConv2d x f st p c df) (trace w') ->
     exists s0 s1, strides a = [s0; s1] /\ st = [1; s0; s1; 1]) /\
  (r = Ok tt ->
   exists scope sh i dt k x f st p c df,
     In (EvGetVariable scope "W_conv2d" sh i dt k) (trace w') /\
     In (EvConv2d x f st p c df) (trace w')).
Proof.
  intros H. apply construct_inv in H.
  assert (IC : forall d, static_channels (prev_outputs_shape (prev_layer a)) = Some d ->
               forall w, fst (infer_input_channels a w) = Ok (fst (channels_and_warning d))).
  { intros d C w. rewrite infer_input_channels_eq, C. destruct d; reflexivity. }
  inversion H; subst; clear H; (split; [|split]).
  all: try (intros E; discriminate E).
  all: try solve [intros; in_trace].
  all: try solve
    [ intros scope sh i dt k I; eexists _, _, _;
      match goal with F : filter_size _ = _ |- _ => rewrite F end;
      repeat split; eauto; in_trace ].
  all: try solve
    [ intros x f st p c df I; eexists _, _; split; [eassumption|]; in_trace ].
  intros _. do 11 eexists. split; member.
Qed.

Lemma weight_shape_and_strides_witness :
  construct accepting "" (default_args example_prev)
    = (Ok tt, snd (construct accepting "" (default_args example_prev))) /\
  (forall scope sh i dt k,
     In (EvGetVariable scope "W_conv2d" sh i dt k)
        (trace (snd (construct accepting "" (default_args example_prev)))) ->
     sh = ShapeTuple [3; 3; 3; 32]) /\
  (forall x f st p c df,
     In (EvConv2d x f st p c df)
        (trace (snd (construct accepting "" (default_args example_prev)))) ->
     st = [1; 1; 1; 1]).
Proof.
  assert (H : construct accepting "" (default_args example_prev)
               = (Ok tt, snd (construct accepting "" (default_args example_prev))))
    by (vm_compute; reflexivity).
  split; [exact H|].
  destruct (weight_shape_and_strides accepting "" (default_args example_prev) _ _ H)
    as (A & B & _).
  split.
  - intros scope sh i dt k I.
    destruct (A scope sh i dt k I) as (fh & fw & ic & F0 & F1 & IC & ->).
    specialize (IC {| self := new_object; variable_scope := ""; trace := [] |}).
    vm_compute in F0, F1, IC.
    injection F0 as <-. injection F1 as <-. injection IC as <-. reflexivity.
  - intros x f st p c df I.
    destruct (B x f st p c df I) as (s0 & s1 & S & ->).
    vm_compute in S. injection S as <- <-. reflexivity.
Defined.

End LayerFacts.


(* ===================================================================== *)
(** * Facts about the quantisation transforms                             *)
(* ===================================================================== *)

Module FloatFacts.
Import Float.
Local Open Scope Z_scope.

Section AnyFormat.
Variable fmt : Format.

(** *** NaN goes through every operation *)







(** *** The dynamic range of an all-zero tensor *)





End AnyFormat.





(** Away from that case quantising twice is quantising once, as on the
    sample filter in binary32. *)
Example requantizing_sample_filter :
  tensor_eqb
    (quantize_weight_overflow binary32 MaxAbs
       (quantize_weight_overflow binary32 MaxAbs sample_filter 8) 8)
    (quantize_weight_overflow binary32 MaxAbs sample_filter 8) = true /\
  tensor_eqb
    (quantize_active_overflow binary32
       (quantize_active_overflow binary32 sample_filter 8) 8)
    (quantize_active_overflow binary32 sample_filter 8) = true.
Proof. split; vm_compute; reflexivity. Qed.

(** At one bit the sign branch is taken, which divides by nothing: the
    zero filter is kept as it is, in each of the three element types and
    with either scaling constant. *)
Example binary_zero_weights (dt : Graph.DType) (rule : BinaryScale) :
  data (quantize_weight_overflow (format_of dt) rule zero_filter 1)
    = repeat (S754_zero false) 8.
Proof. destruct dt, rule; vm_compute; reflexivity. Qed.

(** [2^b - 1] leaves the range of the format at 128 bits in binary32 and
    at 16 bits in binary16. *)
Example steps_overflow :
  steps binary32 128 = S754_infinity false /\
  steps binary16 16 = S754_infinity false.
Proof. split; vm_compute; reflexivity. Qed.

(** With such a width [round(x * inf) / inf] is a NaN for every number,
    and the activation quantiser is not idempotent either. *)
Example requantizing_at_overflowing_width :
  data (quantize_active_overflow binary32 sample_filter 128)
    = repeat S754_nan 4 /\
  tensor_eqb
    (quantize_active_overflow binary32
       (quantize_active_overflow binary32 sample_filter 128) 128)
    (quantize_active_overflow binary32 sample_filter 128) = false.
Proof. split; vm_compute; reflexivity. Qed.

End FloatFacts.


(* ===================================================================== *)
(** * Further facts about the constructor                                 *)
(* ===================================================================== *)

Module ConstructorFacts.
Import Graph QuantizedConv2d LayerFacts.
Local Open Scope string_scope.
Local Open Scope Z_scope.

Lemma static_channels_known a w v :
  fst (static_input_channels a w) = Ok v ->
  static_channels (prev_outputs_shape (prev_layer a)) = Some (Some v).
Proof.
  unfold static_input_channels, static_channels, shape_last.
  destruct (prev_outputs_shape (prev_layer a)) as [dims|]; cbn; [|discriminate].
  destruct (rev dims) as [|[u|] ?]; cbn; intros H; try discriminate.
  now inversion H.
Qed.

Lemma static_channels_scalar (s : TensorShape) :
  s = Some [] -> static_channels s = None.
Proof. now intros ->. Qed.

Lemma filter_size_short (l : list Z) : len l < 2 -> nth_error l 1 = None.
Proof.
  unfold len. destruct l as [|fh [|fw rest]]; cbn [List.length]; try reflexivity. lia.
Qed.

(** X1.  Every run of the constructor gets past line 110 in this
    embedding (the base class, the log call and the activation quantiser
    are taken to complete).  However the run ends afterwards, by one of
    the two checks, by an [IndexError], by a primitive that refuses a
    call, or with success, [self.inputs] holds the quantised inputs, and
    the activation quantiser has been called exactly once, right after
    the one log record of line 103. *)
Theorem inputs_quantized_in_every_run (tf : Primitives) (outer : string)
    (a : Args) :
  inputs (self (snd (construct tf outer a)))
    = Some (QuantizeActiveOverflow (prev_outputs (prev_layer a)) (bitA a)) /\
  filter is_quantize_active (trace (snd (construct tf outer a)))
    = [EvQuantizeActive (prev_outputs (prev_layer a)) (bitA a)] /\
  exists info rest,
    trace (snd (construct tf outer a)) =
      info :: EvQuantizeActive (prev_outputs (prev_layer a)) (bitA a) :: rest /\
    is_log_info info = true /\
    forallb (fun e => negb (is_log_info e)) rest = true.
Proof.
  pose proof (construct_outcome tf outer a) as O.
  destruct (construct tf outer a) as [r w]. cbn [fst snd] in *.
  inversion O; subst; clear O; (split; [reflexivity|]);
    unfold built, bias_add_refused, bias_refused, conv_rejected,
      weight_refused, add_events, after_quantize;
    cbn [trace self];
    try match goal with B : b_init _ = Some _ |- _ => rewrite B end;
    try destruct d; try destruct (b_init a);
    (split; [reflexivity|]); eexists _, _; (split; [reflexivity|]);
    split; reflexivity.
Qed.

(** X2.  When the convolution primitive refuses the padding, the weight
    variable has been created and quantised already: it stays recorded
    among the layer's own weights, while no output is set, no bias is
    created and nothing is registered. *)
Theorem padding_rejected_after_weight_created (tf : Primitives) (outer : string) (a : Args)
    (w' : World) :
  construct tf outer a
    = (Raise (ValueError "Attr padding of Conv2D Op not in: SAME, VALID"), w') ->
  exists fh fw ic s0 s1,
    let x := prev_outputs (prev_layer a) in
    let W := Var (join_scope outer (name a)) "W_conv2d"
               (ShapeTuple [fh; fw; ic; n_filter a]) (W_init a) (dtype x)
               (args_or_empty (W_init_args a)) in
    calls (trace w') =
      [EvQuantizeActive x (bitA a);
       EvGetVariable (join_scope outer (name a)) "W_conv2d"
         (ShapeTuple [fh; fw; ic; n_filter a]) (W_init a) (dtype x)
         (args_or_empty (W_init_args a));
       EvQuantizeWeight W (bitW a);
       EvConv2d (QuantizeActiveOverflow x (bitA a))
         (QuantizeWeightOverflow W (bitW a)) [1; s0; s1; 1] (padding a)
         (use_cudnn_on_gpu a) (data_format a)] /\
    _local_weights (self w') = [W] /\
    outputs (self w') = None /\
    padding a <> "SAME" /\ padding a <> "VALID".
Proof.
  intros H. apply construct_inv in H. inversion H; subst; clear H.
  exists fh, fw, (fst (channels_and_warning d)), s0, s1. cbn zeta.
  split; [destruct d; reflexivity|].
  split; [reflexivity|]. split; [reflexivity|].
  now apply padding_supported_false.
Qed.

Lemma padding_rejected_after_weight_created_witness :
  construct accepting "" (with_padding (default_args example_prev) "FULL")
    = (Raise (ValueError "Attr padding of Conv2D Op not in: SAME, VALID"),
       snd (construct accepting "" (with_padding (default_args example_prev) "FULL"))) /\
  exists W,
    _local_weights
      (self (snd (construct accepting "" (with_padding (default_args example_prev) "FULL"))))
      = [W] /\
    outputs
      (self (snd (construct accepting "" (with_padding (default_args example_prev) "FULL"))))
      = None.
Proof.
  assert (H : construct accepting "" (with_padding (default_args example_prev) "FULL")
    = (Raise (ValueError "Attr padding of Conv2D Op not in: SAME, VALID"),
       snd (construct accepting "" (with_padding (default_args example_prev) "FULL"))))
    by (vm_compute; reflexivity).
  split; [exact H|].
  destruct (padding_rejected_after_weight_created accepting "" _ _ H)
    as (fh & fw & ic & s0 & s1 & _ & L & O & _).
  eexists. split; [exact L|exact O].
Defined.

(** X3.  When the last static dimension of the previous outputs is a known
    number [v], lines 118-122 give [v] and log nothing: no run logs the
    warning, and the weight is only ever requested with [v] input
    channels. *)
Theorem known_channels_used (tf : Primitives) (outer : string) (a : Args) (v : Z) (w0 : World) :
  fst (static_input_channels a w0) = Ok v ->
  (forall w, infer_input_channels a w = (Ok v, w)) /\
  (forall msg, ~ In (EvLogWarning msg) (trace (snd (construct tf outer a)))) /\
  (forall scope sh i dt k,
     In (EvGetVariable scope "W_conv2d" sh i dt k)
        (trace (snd (construct tf outer a))) ->
     exists fh fw, sh = ShapeTuple [fh; fw; v; n_filter a]).
Proof.
  intros H. apply static_channels_known in H.
  split; [|split].
  - intros w. rewrite infer_input_channels_eq, H. reflexivity.
  - intros msg I. pose proof (construct_outcome tf outer a) as O.
    destruct (construct tf outer a) as [r w]. cbn [fst snd] in *.
    inversion O; subst; clear O;
      try match goal with
          | C : static_channels _ = Some ?d |- _ =>
              rewrite H in C; injection C as <-
          end;
      in_trace.
  - intros scope sh i dt k I. pose proof (construct_outcome tf outer a) as O.
    destruct (construct tf outer a) as [r w]. cbn [fst snd] in *.
    inversion O; subst; clear O;
      try match goal with
          | C : static_channels _ = Some ?d |- _ =>
              rewrite H in C; injection C as <-
          end;
      try (exists fh, fw); in_trace.
Qed.

Lemma known_channels_used_witness :
  fst (static_input_channels (default_args example_prev)
         {| self := new_object; variable_scope := ""; trace := [] |}) = Ok 3 /\
  forall msg,
    ~ In (EvLogWarning msg) (trace (snd (construct accepting "" (default_args example_prev)))).
Proof.
  assert (H : fst (static_input_channels (default_args example_prev)
                {| self := new_object; variable_scope := ""; trace := [] |}) = Ok 3)
    by (vm_compute; reflexivity).
  split; [exact H|].
  exact (proj1 (proj2 (known_channels_used accepting "" (default_args example_prev) 3 _ H))).
Defined.

(** X4.  The handler of lines 120-122 catches a [TypeError] only.  When
    the previous outputs are a scalar, so that there is no last
    dimension to index, the [IndexError] of line 119 leaves the
    constructor: no warning is logged and no variable is created. *)
Theorem scalar_input_raises_index_error (tf : Primitives) (outer : string) (a : Args) :
  prev_outputs_shape (prev_layer a) = Some [] ->
  use_gemm a = false -> len (strides a) = 2 ->
  fst (construct tf outer a) = Raise (IndexError "list index out of range") /\
  (forall w, fst (infer_input_channels a w)
               = Raise (IndexError "list index out of range")) /\
  calls (trace (snd (construct tf outer a)))
    = [EvQuantizeActive (prev_outputs (prev_layer a)) (bitA a)] /\
  (forall msg, ~ In (EvLogWarning msg) (trace (snd (construct tf outer a)))).
Proof.
  intros Sh G L. apply static_channels_scalar in Sh.
  apply Z.eqb_eq, len_is_2 in L. destruct L as (s0 & s1 & S).
  rewrite (construct_no_dimension tf outer a s0 s1 G S Sh). cbn [fst snd].
  repeat split.
  - intros w. rewrite infer_input_channels_eq, Sh. reflexivity.
  - intros msg I. cbn in I. destruct I as [I|[I|I]]; try discriminate. contradiction.
Qed.

Lemma scalar_input_raises_index_error_witness :
  (prev_outputs_shape (prev_layer (default_args example_prev_scalar)) = Some [] /\
   use_gemm (default_args example_prev_scalar) = false /\
   len (strides (default_args example_prev_scalar)) = 2) /\
  fst (construct accepting "" (default_args example_prev_scalar))
    = Raise (IndexError "list index out of range").
Proof.
  split; [repeat split|].
  exact (proj1 (scalar_input_raises_index_error accepting ""
                  (default_args example_prev_scalar) eq_refl eq_refl eq_refl)).
Defined.

(** X5.  Unlike the strides, the filter size is not checked: one with
    fewer than two components makes line 124 raise an [IndexError], after
    the inputs were quantised and the channels inferred, and before any
    variable is created. *)
Theorem short_filter_size_raises (tf : Primitives) (outer : string) (a : Args) :
  use_gemm a = false -> len (strides a) = 2 ->
  prev_outputs_shape (prev_layer a) <> Some [] ->
  len (filter_size a) < 2 ->
  fst (construct tf outer a) = Raise (IndexError "tuple index out of range") /\
  calls (trace (snd (construct tf outer a)))
    = [EvQuantizeActive (prev_outputs (prev_layer a)) (bitA a)] /\
  _local_weights (self (snd (construct tf outer a))) = [] /\
  outputs (self (snd (construct tf outer a))) = None.
Proof.
  intros G L Sh F. apply Z.eqb_eq, len_is_2 in L. destruct L as (s0 & s1 & S).
  destruct (static_channels_some _ Sh) as (d & C).
  apply filter_size_short in F.
  rewrite (construct_filter_size tf outer a s0 s1 d G S C F). cbn [fst snd].
  repeat split; destruct d; reflexivity.
Qed.

Lemma short_filter_size_raises_witness :
  (use_gemm (with_filter_size (default_args example_prev) [3]) = false /\
   len (strides (with_filter_size (default_args example_prev) [3])) = 2 /\
   prev_outputs_shape (prev_layer (with_filter_size (default_args example_prev) [3]))
     <> Some [] /\
   len (filter_size (with_filter_size (default_args example_prev) [3])) < 2) /\
  fst (construct accepting "" (with_filter_size (default_args example_prev) [3]))
    = Raise (IndexError "tuple index out of range").
Proof.
  assert (Sh : prev_outputs_shape
                 (prev_layer (with_filter_size (default_args example_prev) [3]))
               <> Some []) by discriminate.
  assert (F : len (filter_size (with_filter_size (default_args example_prev) [3])) < 2)
    by (vm_compute; reflexivity).
  split; [repeat split; assumption|].
  exact (proj1 (short_filter_size_raises accepting ""
                  (with_filter_size (default_args example_prev) [3])
                  eq_refl eq_refl Sh F)).
Defined.

(** X6.  Only the first two components of the filter size are used:
    further components change the log record of line 103 and nothing
    else, neither the result, nor the layer object, nor any call. *)
Theorem extra_filter_size_ignored (tf : Primitives) (outer : string) (a : Args)
    (fh fw : Z) (rest rest' : list Z) :
  filter_size a = fh :: fw :: rest ->
  let a' := with_filter_size a (fh :: fw :: rest') in
  fst (construct tf outer a') = fst (construct tf outer a) /\
  self (snd (construct tf outer a')) = self (snd (construct tf outer a)) /\
  calls (trace (snd (construct tf outer a')))
    = calls (trace (snd (construct tf outer a))).
Proof.
  intros F a'.
  assert (F' : filter_size a' = fh :: fw :: rest') by reflexivity.
  pose proof (construct_outcome tf outer a) as O.
  destruct (construct tf outer a) as [r w]. cbn [fst snd] in *.
  inversion O; subst; clear O;
    try match goal with
        | N : nth_error (filter_size a) 1 = None |- _ =>
            rewrite F in N; discriminate N
        | F0 : filter_size a = ?x :: _ :: _ |- _ =>
            is_var x; rewrite F in F0; injection F0 as <- <- <-
        end.
  - rewrite (construct_use_gemm tf outer a'); [|assumption]. repeat split.
  - rewrite (construct_bad_strides tf outer a'); [|assumption..]. repeat split.
  - erewrite (construct_no_dimension tf outer a'); [|eassumption..]. repeat split.
  - erewrite (construct_weight_refused tf outer a'); [|eassumption..].
    repeat split; destruct d; reflexivity.
  - erewrite (construct_padding tf outer a'); [|eassumption..].
    repeat split; destruct d; reflexivity.
  - erewrite (construct_conv_refused tf outer a'); [|eassumption..].
    repeat split; destruct d; reflexivity.
  - erewrite (construct_bias_refused tf outer a'); [|eassumption..].
    repeat split; destruct d; reflexivity.
  - erewrite (construct_bias_add_refused tf outer a'); [|eassumption..].
    repeat split; destruct d; reflexivity.
  - erewrite (construct_built tf outer a'); [|eassumption..].
    repeat split; destruct d; destruct (b_init a); reflexivity.
Qed.

Lemma extra_filter_size_ignored_witness :
  filter_size (default_args example_prev) = [3; 3] /\
  self (snd (construct accepting ""
               (with_filter_size (default_args example_prev) [3; 3; 7; 7])))
    = self (snd (construct accepting "" (default_args example_prev))).
Proof.
  split; [reflexivity|].
  exact (proj1 (proj2 (extra_filter_size_ignored accepting "" (default_args example_prev)
                         3 3 [] [7; 7] eq_refl))).
Defined.

(** X7.  The variable scope of the caller is in force again when the
    constructor is left, whether it returns or raises, also when the
    exception comes from inside the [with] block; and every variable the
    constructor asks for is asked for in the scope of the layer's [name]
    argument, under one of the two names [W_conv2d] and [b_conv2d]. *)
Theorem variable_scope_restored (tf : Primitives) (outer : string) (a : Args) :
  variable_scope (snd (construct tf outer a)) = outer /\
  (forall scope nm sh i dt k,
     In (EvGetVariable scope nm sh i dt k) (trace (snd (construct tf outer a))) ->
     scope = join_scope outer (name a) /\ (nm = "W_conv2d" \/ nm = "b_conv2d")).
Proof.
  pose proof (construct_outcome tf outer a) as O.
  destruct (construct tf outer a) as [r w]. cbn [fst snd] in *.
  split.
  - inversion O; subst; reflexivity.
  - intros scope nm sh i dt k I.
    inversion O; subst; clear O;
      unfold built, conv_rejected, add_events, after_quantize in I;
      cbn [trace] in I; revert I;
      try destruct d; try destruct (b_init a); cbn; intros I;
      repeat (destruct I as [I|I];
              [try discriminate; try (inversion I; subst; now auto)|]);
      contradiction.
Qed.

Lemma variable_scope_restored_witness :
  variable_scope
    (snd (construct accepting "net" (with_padding (default_args example_prev) "FULL")))
    = "net" /\
  forall scope nm sh i dt k,
    In (EvGetVariable scope nm sh i dt k)
       (trace (snd (construct accepting "net"
                      (with_padding (default_args example_prev) "FULL")))) ->
    scope = "net/quan_cnn2d".
Proof.
  destruct (variable_scope_restored accepting "net"
              (with_padding (default_args example_prev) "FULL")) as (R & V).
  split; [exact R|].
  intros scope nm sh i dt k I. exact (proj1 (V scope nm sh i dt k I)).
Defined.

(** X8.  A construction succeeds only with [use_gemm] false, exactly two
    strides, at least two components of the filter size, a padding that
    is "SAME" or "VALID", and previous outputs that are not a scalar. *)
Theorem success_requires (tf : Primitives) (outer : string) (a : Args) (w' : World) :
  construct tf outer a = (Ok tt, w') ->
  use_gemm a = false /\
  len (strides a) = 2 /\
  2 <= len (filter_size a) /\
  (padding a = "SAME" \/ padding a = "VALID") /\
  prev_outputs_shape (prev_layer a) <> Some [].
Proof.
  intros H. apply construct_inv in H. inversion H; subst; clear H.
  repeat split.
  - assumption.
  - match goal with S : strides a = _ |- _ => rewrite S end. reflexivity.
  - match goal with F : filter_size a = _ |- _ => rewrite F end.
    unfold len. cbn [List.length]. lia.
  - now apply padding_supported_true.
  - intros Sh. apply static_channels_scalar in Sh. congruence.
Qed.

Lemma success_requires_witness :
  construct accepting "" (default_args example_prev)
    = (Ok tt, snd (construct accepting "" (default_args example_prev))) /\
  use_gemm (default_args example_prev) = false /\
  len (strides (default_args example_prev)) = 2 /\
  2 <= len (filter_size (default_args example_prev)) /\
  (padding (default_args example_prev) = "SAME" \/
   padding (default_args example_prev) = "VALID") /\
  prev_outputs_shape (prev_layer (default_args example_prev)) <> Some [].
Proof.
  assert (H : construct accepting "" (default_args example_prev)
               = (Ok tt, snd (construct accepting "" (default_args example_prev))))
    by (vm_compute; reflexivity).
  split; [exact H|].
  exact (success_requires accepting "" (default_args example_prev) _ H).
Defined.

(** X9.  In a construction that succeeds the bias exists exactly when
    [b_init] is given.  With [b_init = None] no bias variable is asked
    for, [bias_add] is not called, and the layer has one weight of its
    own.  With an initializer [bi] the bias variable is asked for exactly
    once, with [bi] and with the bare integer [n_filter] as its shape;
    [bias_add] is called exactly once, on the output of the convolution
    and that variable; and the layer has two weights of its own, the
    second being the bias variable. *)
Theorem bias_exactly_when_b_init (tf : Primitives) (outer : string)
    (a : Args) (w' : World) :
  construct tf outer a = (Ok tt, w') ->
  (b_init a = None ->
   List.length (_local_weights (self w')) = 1%nat /\
   filter is_bias_add (trace w') = [] /\
   filter is_bias_request (trace w') = []) /\
  (forall bi, b_init a = Some bi ->
   let b := Var (join_scope outer (name a)) "b_conv2d" (ShapeInt (n_filter a))
              bi (dtype (prev_outputs (prev_layer a)))
              (args_or_empty (b_init_args a)) in
   exists W conv,
     _local_weights (self w') = [W; b] /\
     filter is_bias_request (trace w') =
       [EvGetVariable (join_scope outer (name a)) "b_conv2d"
          (ShapeInt (n_filter a)) bi (dtype (prev_outputs (prev_layer a)))
          (args_or_empty (b_init_args a))] /\
     filter is_bias_add (trace w') = [EvBiasAdd conv b] /\
     conv = Conv2d (QuantizeActiveOverflow (prev_outputs (prev_layer a)) (bitA a))
              (QuantizeWeightOverflow W (bitW a))
              [1; nth 0 (strides a) 0; nth 1 (strides a) 0; 1]
              (padding a) (use_cudnn_on_gpu a) (data_format a) /\
     exists act_in,
       outputs (self w') = Some act_in /\
       (act a = None -> act_in = BiasAdd conv b "bias_add") /\
       (forall f, act a = Some f ->
          act_in = Activation f (BiasAdd conv b "bias_add"))).
Proof.
  intros H. apply construct_inv in H. inversion H; subst; clear H.
  split.
  - intros B. unfold built. cbn [self trace _local_weights after_quantize].
    rewrite B. split; [reflexivity|]. split; destruct d; reflexivity.
  - intros bi B. cbn zeta. unfold built.
    cbn [self trace _local_weights outputs after_quantize].
    match goal with S : strides a = _ |- _ => rewrite S end.
    rewrite B. eexists _, _. split; [reflexivity|].
    split; [destruct d; reflexivity|]. split; [destruct d; reflexivity|].
    split; [reflexivity|]. eexists. split; [reflexivity|].
    split.
    + intros A. rewrite A. reflexivity.
    + intros f A. rewrite A. reflexivity.
Qed.

Lemma bias_exactly_when_b_init_witness :
  construct accepting "" (default_args example_prev)
    = (Ok tt, snd (construct accepting "" (default_args example_prev))) /\
  exists W conv,
    filter is_bias_add
      (trace (snd (construct accepting "" (default_args example_prev))))
      = [EvBiasAdd conv
           (Var "quan_cnn2d" "b_conv2d" (ShapeInt 32)
              {| initializer_repr := "constant_initializer(value=0.0)" |}
              float32 [])] /\
    conv = Conv2d (QuantizeActiveOverflow (Upstream "input" float32) 8)
             (QuantizeWeightOverflow W 8) [1; 1; 1; 1] "SAME" true None.
Proof.
  assert (H : construct accepting "" (default_args example_prev)
               = (Ok tt, snd (construct accepting "" (default_args example_prev))))
    by (vm_compute; reflexivity).
  split; [exact H|].
  destruct (proj2 (bias_exactly_when_b_init accepting ""
                     (default_args example_prev) _ H) _ eq_refl)
    as (W & conv & _ & _ & A & C & _).
  exists W, conv. split; [exact A|exact C].
Defined.



End ConstructorFacts.
